(** * tfe_data_retention_policy: the resource's lifecycle callbacks

    A shallow embedding of
    [internal/provider/resource_tfe_data_retention_policy.go].

    Go strings are byte strings ([string]); Go integers are [Z] with the
    wrap-around of the conversion written out; the plugin framework's
    attribute values keep their three states (null, unknown, known); plan
    and state are finite maps from attribute names to attribute values;
    the diagnostics of a response are a list.  The remote API client is an
    interface, so it is a record of functions over an abstract remote
    state, and every call made through it is recorded in a trace. *)

From Stdlib Require Import ZArith Lia Ascii.
From stdpp Require Import base list strings gmap fin_maps.

Local Open Scope Z_scope.
Set Default Proof Using "Type".

(** ** Go values *)

Module Go.

(** [math.MinInt64], [math.MaxInt64]. *)
Definition MinInt64 : Z := - 2 ^ 63.
Definition MaxInt64 : Z := 2 ^ 63 - 1.

(** A conversion between integer types keeps the low [w] bits and reads
    them as a signed number. *)
Definition wrap (w : Z) (x : Z) : Z :=
  (x + 2 ^ (w - 1)) mod 2 ^ w - 2 ^ (w - 1).

(** [error]: what the callbacks use of an error is [err.Error()]. *)
Definition error : Type := string.

(** A call returning [(T, error)]. *)
Inductive result (A : Type) : Type :=
| Ok (a : A)
| Err (e : error).
Arguments Ok {A} a.
Arguments Err {A} e.

Definition failure {A : Type} (r : result A) : option error :=
  match r with
  | Ok _ => None
  | Err e => Some e
  end.

End Go.

(** ** math/big.Float, as far as [Int64] looks at it

    A finite [big.Float] is a binary floating-point number of arbitrary
    precision: its value is [m * 2^e] for integers [m] and [e].  The other
    values are the two infinities. *)

Module BigFloat.

Inductive t : Type :=
| Finite (m : Z) (e : Z)
| Inf (neg : bool).

(** The integer part of [m * 2^e], rounding toward zero. *)
Definition trunc (m e : Z) : Z :=
  if 0 <=? e then m * 2 ^ e else Z.quot m (2 ^ (- e)).

(** The method [Int64] of a float: "the integer resulting from truncating x towards
    zero"; [math.MinInt64] for [x < math.MinInt64] and [math.MaxInt64]
    for [x > math.MaxInt64].  The accuracy, its second result, is
    dropped by the only caller. *)
Definition Int64 (x : t) : Z :=
  match x with
  | Finite m e =>
      let i := trunc m e in
      if i <? Go.MinInt64 then Go.MinInt64
      else if Go.MaxInt64 <? i then Go.MaxInt64
      else i
  | Inf true => Go.MinInt64
  | Inf false => Go.MaxInt64
  end.

(** The value [m * 2^e] as a fraction with a positive denominator. *)
Definition numerator (m e : Z) : Z := if 0 <=? e then m * 2 ^ e else m.
Definition denominator (m e : Z) : Z := if 0 <=? e then 1 else 2 ^ (- e).

(** [30.0], and [30.7] rounded to a 512-bit mantissa. *)
Definition thirty : t := Finite 30 0.
Definition thirty_point_seven : t := Finite ((307 * 2 ^ 507 + 5) / 10) (- 507).

End BigFloat.

(** ** terraform-plugin-framework values *)

(** [types.String]. *)
Inductive tfString : Type :=
| StringNull
| StringUnknown
| StringValue (s : string).

(** [types.Number]; a known number holds a [*big.Float]. *)
Inductive tfNumber : Type :=
| NumberNull
| NumberUnknown
| NumberValue (f : BigFloat.t).

(** [types.Object]: the two blocks of this schema have number attributes
    only ([days]) or none. *)
Inductive tfObject : Type :=
| ObjectNull
| ObjectUnknown
| ObjectValue (attrs : gmap string tfNumber).

Definition String_IsNull (v : tfString) : bool :=
  match v with StringNull => true | _ => false end.

(** [ValueString] "returns the known string value. If String is null or
    unknown, returns the empty string". *)
Definition ValueString (v : tfString) : string :=
  match v with StringValue s => s | _ => "" end.

Definition Object_IsNull (v : tfObject) : bool :=
  match v with ObjectNull => true | _ => false end.

Definition Object_IsUnknown (v : tfObject) : bool :=
  match v with ObjectUnknown => true | _ => false end.

(** [ValueBigFloat] returns the pointer held by the number: [nil] unless
    the number is known. *)
Definition ValueBigFloat (v : tfNumber) : option BigFloat.t :=
  match v with NumberValue f => Some f | _ => None end.

(** ** Diagnostics *)

Inductive Severity : Type := SeverityError | SeverityWarning.

Record Diagnostic : Type := {
  severity : Severity;
  summary : string;
  detail : string
}.

Definition Diagnostics : Type := list Diagnostic.

#[global] Instance Severity_eq_dec : EqDecision Severity.
Proof. solve_decision. Defined.

#[global] Instance Diagnostic_eq_dec : EqDecision Diagnostic.
Proof. solve_decision. Defined.

Definition NewErrorDiagnostic (s d : string) : Diagnostic :=
  {| severity := SeverityError; summary := s; detail := d |}.

Definition is_error (d : Diagnostic) : bool :=
  match severity d with SeverityError => true | SeverityWarning => false end.

Definition HasError (ds : Diagnostics) : bool := existsb is_error ds.

Definition Contains (ds : Diagnostics) (d : Diagnostic) : bool :=
  existsb (fun d' => bool_decide (d' = d)) ds.

(** [Diagnostics.Append] "adds non-empty and non-duplicate diagnostics". *)
Fixpoint Append (ds : Diagnostics) (new : Diagnostics) : Diagnostics :=
  match new with
  | [] => ds
  | d :: rest => Append (if Contains ds d then ds else ds ++ [d]) rest
  end.

Definition AddError (ds : Diagnostics) (s d : string) : Diagnostics :=
  Append ds [NewErrorDiagnostic s d].

(** ** The part of package [strings] behind [strings.SplitN] *)

Module strings.

Fixpoint HasPrefix (s prefix : string) : bool :=
  match prefix with
  | EmptyString => true
  | String c prefix' =>
      match s with
      | EmptyString => false
      | String d s' => Ascii.eqb c d && HasPrefix s' prefix'
      end
  end.

(** [Index] "returns the index of the first instance of substr in s, or
    -1 if substr is not present in s". *)
Fixpoint Index (s substr : string) : Z :=
  if HasPrefix s substr then 0
  else match s with
       | EmptyString => -1
       | String _ s' =>
           let i := Index s' substr in
           if i <? 0 then -1 else i + 1
       end.

Definition len (s : string) : Z := Z.of_nat (String.length s).

(** The slices [s[:n]] and [s[n:]]. *)
Fixpoint take (n : nat) (s : string) : string :=
  match n, s with
  | S n', String c s' => String c (take n' s')
  | _, _ => EmptyString
  end.

Fixpoint drop (n : nat) (s : string) : string :=
  match n, s with
  | S n', String _ s' => drop n' s'
  | _, _ => s
  end.

(** [Count] for a non-empty [substr]: the number of non-overlapping
    instances; the loop removes at least one byte per round. *)
Fixpoint Count_loop (fuel : nat) (s substr : string) : Z :=
  match fuel with
  | O => 0
  | S fuel' =>
      let i := Index s substr in
      if i <? 0 then 0
      else 1 + Count_loop fuel' (drop (Z.to_nat (i + len substr)) s) substr
  end.

Definition Count (s substr : string) : Z :=
  Count_loop (S (String.length s)) s substr.

(** The loop of [genSplit]: [k] is the number of cuts still allowed
    ([n - 1 - i]). *)
Fixpoint genSplit_loop (k : nat) (s sep : string) (sepSave : Z) : list string :=
  match k with
  | O => [s]
  | S k' =>
      let m := Index s sep in
      if m <? 0 then [s]
      else take (Z.to_nat (m + sepSave)) s
             :: genSplit_loop k' (drop (Z.to_nat (m + len sep)) s) sep sepSave
  end.

(** [genSplit] for a non-empty separator.  (An empty separator is
    handed to [explode], which cuts [s] into UTF-8 sequences; the one
    call below passes the literal ["/"].) *)
Definition genSplit (s sep : string) (sepSave n : Z) : list string :=
  if n =? 0 then []
  else
    let n := if n <? 0 then Count s sep + 1 else n in
    let n := if len s + 1 <? n then len s + 1 else n in
    genSplit_loop (Z.to_nat (n - 1)) s sep sepSave.

Definition SplitN (s sep : string) (n : Z) : list string := genSplit s sep 0 n.

End strings.

(** ** Schema, plan and state

    The schema declares three string attributes and two single nested
    blocks.  A plan, a state and a configuration hold one value per
    attribute name; a name without a value is a null attribute. *)

Inductive attrValue : Type :=
| AttrString (v : tfString)
| AttrObject (v : tfObject).

Inductive attrKind : Type := KindString | KindObject.

(** [Schema]: the attributes [id], [organization], [workspace_id] and the
    blocks [delete_older_than], [dont_delete]. *)
Definition Schema : gmap string attrKind :=
  {[ "id" := KindString;
     "organization" := KindString;
     "workspace_id" := KindString;
     "delete_older_than" := KindObject;
     "dont_delete" := KindObject ]}.

Definition kind_of (v : attrValue) : attrKind :=
  match v with AttrString _ => KindString | AttrObject _ => KindObject end.

#[global] Instance attrKind_eq_dec : EqDecision attrKind.
Proof. solve_decision. Defined.

(** Modelled from the spec: the structs [modelTFEDataRetentionPolicy] and
    [modelTFEDeleteOlderThan] are declared in another file of the
    provider.  The spec's persisted record has [id], [organization],
    [workspace_id], [delete_older_than] with its [days] and [dont_delete];
    the field names are the ones this file selects. *)
Record modelTFEDeleteOlderThan : Type := {
  Days : tfNumber
}.

Record modelTFEDataRetentionPolicy : Type := {
  ID : tfString;
  Organization : tfString;
  WorkspaceId : tfString;
  DeleteOlderThan : tfObject;
  DontDelete : tfObject
}.

Definition set_Organization (v : tfString) (m : modelTFEDataRetentionPolicy)
  : modelTFEDataRetentionPolicy :=
  {| ID := ID m; Organization := v; WorkspaceId := WorkspaceId m;
     DeleteOlderThan := DeleteOlderThan m; DontDelete := DontDelete m |}.

Definition conversion_error (name : string) : Diagnostic :=
  NewErrorDiagnostic "Value Conversion Error"
    ("An unexpected error was encountered trying to convert the value of " +:+ name).

(** Reading one attribute into a [types.String] or [types.Object] field. *)
Definition get_string (raw : gmap string attrValue) (name : string)
  : Diagnostics * tfString :=
  match raw !! name with
  | None => ([], StringNull)
  | Some (AttrString v) => ([], v)
  | Some (AttrObject _) => ([conversion_error name], StringNull)
  end.

Definition get_object (raw : gmap string attrValue) (name : string)
  : Diagnostics * tfObject :=
  match raw !! name with
  | None => ([], ObjectNull)
  | Some (AttrObject v) => ([], v)
  | Some (AttrString _) => ([conversion_error name], ObjectNull)
  end.

(** [Plan.Get] and [State.Get] into a [modelTFEDataRetentionPolicy]. *)
Definition Get (raw : gmap string attrValue)
  : Diagnostics * modelTFEDataRetentionPolicy :=
  let '(d1, id) := get_string raw "id" in
  let '(d2, org) := get_string raw "organization" in
  let '(d3, ws) := get_string raw "workspace_id" in
  let '(d4, older) := get_object raw "delete_older_than" in
  let '(d5, dont) := get_object raw "dont_delete" in
  (d1 ++ d2 ++ d3 ++ d4 ++ d5,
   {| ID := id; Organization := org; WorkspaceId := ws;
      DeleteOlderThan := older; DontDelete := dont |}).

(** [State.Set] of a whole model. *)
Definition Set_ (m : modelTFEDataRetentionPolicy)
  : Diagnostics * gmap string attrValue :=
  ([],
   {[ "id" := AttrString (ID m);
      "organization" := AttrString (Organization m);
      "workspace_id" := AttrString (WorkspaceId m);
      "delete_older_than" := AttrObject (DeleteOlderThan m);
      "dont_delete" := AttrObject (DontDelete m) ]}).

(** [State.SetAttribute] at a root path: the attribute has to be in the
    schema with the kind of the value. *)
Definition SetAttribute (raw : gmap string attrValue) (name : string) (v : attrValue)
  : Diagnostics * gmap string attrValue :=
  if bool_decide (Schema !! name = Some (kind_of v))
  then ([], <[name := v]> raw)
  else ([conversion_error name], raw).

(** [Object.As] with a [**modelTFEDeleteOlderThan] target and empty
    options: an unknown object is an error, a null object sets the
    pointer to [nil], a known object has to have the attributes of the
    struct, no more and no fewer. *)
Definition As (o : tfObject) (target : option modelTFEDeleteOlderThan)
  : Diagnostics * option modelTFEDeleteOlderThan :=
  match o with
  | ObjectUnknown => ([conversion_error "unhandled unknown value"], target)
  | ObjectNull => ([], None)
  | ObjectValue attrs =>
      match attrs !! "days" with
      | Some n =>
          if bool_decide (size attrs = 1%nat)
          then ([], Some {| Days := n |})
          else ([conversion_error "mismatch between struct and object"], target)
      | None => ([conversion_error "mismatch between struct and object"], target)
      end
  end.

(** [objectvalidator.ExactlyOneOf] on the block [this] with the sibling
    [other]: validation is delayed while either is unknown; otherwise the
    values that are not null are counted. *)
Definition ExactlyOneOf (config : gmap string attrValue) (this other : string)
  : Diagnostics :=
  let v := snd (get_object config this) in
  let o := snd (get_object config other) in
  if Object_IsUnknown v then []
  else if Object_IsUnknown o then []
  else
    let count := (if Object_IsNull v then 0 else 1) + (if Object_IsNull o then 0 else 1) in
    if count =? 0 then
      [NewErrorDiagnostic "Invalid Attribute Combination"
         "No attribute specified when one (and only one) of them is required"]
    else if 1 <? count then
      [NewErrorDiagnostic "Invalid Attribute Combination"
         "2 attributes specified when one (and only one) of them is required"]
    else [].

(** The validators the schema attaches to its two blocks. *)
Definition Schema_Validate (config : gmap string attrValue) : Diagnostics :=
  Append (ExactlyOneOf config "delete_older_than" "dont_delete")
         (ExactlyOneOf config "dont_delete" "delete_older_than").

(** ** go-tfe: the data retention policy API *)

Module tfe.

Record DataRetentionPolicyDeleteOlderSetOptions : Type := {
  DeleteOlderThanNDays : Z
}.

(** A struct without fields. *)
Record DataRetentionPolicyDontDeleteSetOptions : Type :=
  NoDontDeleteSetOptions { }.

Record DataRetentionPolicyDeleteOlder : Type := {
  DeleteOlder_ID : string;
  DeleteOlder_DeleteOlderThanNDays : Z
}.

Record DataRetentionPolicyDontDelete : Type := {
  DontDelete_ID : string
}.

Record DataRetentionPolicyChoice : Type := {
  Choice_DeleteOlder : option DataRetentionPolicyDeleteOlder;
  Choice_DontDelete : option DataRetentionPolicyDontDelete
}.

(** [Client.Organizations] and [Client.Workspaces]: the two families
    of the API. *)
Inductive Family : Type := Organizations | Workspaces.

(** A call, as it leaves the provider: the family, the address (an
    organization name or a workspace id) and the options. *)
Inductive Call : Type :=
| SetDeleteOlder (f : Family) (address : string)
    (options : DataRetentionPolicyDeleteOlderSetOptions)
| SetDontDelete (f : Family) (address : string)
    (options : DataRetentionPolicyDontDeleteSetOptions)
| ReadChoice (f : Family) (address : string).

(** The client interface over a remote system with states in [R]. *)
Record Client (R : Type) : Type := {
  SetDataRetentionPolicyDeleteOlder :
    Family -> string -> DataRetentionPolicyDeleteOlderSetOptions ->
    R -> Go.result DataRetentionPolicyDeleteOlder * R;
  SetDataRetentionPolicyDontDelete :
    Family -> string -> DataRetentionPolicyDontDeleteSetOptions ->
    R -> Go.result DataRetentionPolicyDontDelete * R;
  ReadDataRetentionPolicyChoice :
    Family -> string -> R -> Go.result DataRetentionPolicyChoice * R
}.
Arguments SetDataRetentionPolicyDeleteOlder {R} _ _ _ _ _.
Arguments SetDataRetentionPolicyDontDelete {R} _ _ _ _ _.
Arguments ReadDataRetentionPolicyChoice {R} _ _ _ _.

Definition is_SetDeleteOlder (c : Call) : bool :=
  match c with SetDeleteOlder _ _ _ => true | _ => false end.

Definition is_SetDontDelete (c : Call) : bool :=
  match c with SetDontDelete _ _ _ => true | _ => false end.

Definition family (c : Call) : Family :=
  match c with
  | SetDeleteOlder f _ _ | SetDontDelete f _ _ | ReadChoice f _ => f
  end.

Definition address (c : Call) : string :=
  match c with
  | SetDeleteOlder _ a _ | SetDontDelete _ a _ | ReadChoice _ a => a
  end.

End tfe.

(** ** The world a callback runs in

    The remote system and the trace of the calls made so far, each with
    the error it returned, if any.  A callback returns or panics. *)

Record Event : Type := {
  call : tfe.Call;
  failed : option Go.error
}.

Record World (R : Type) : Type := {
  remote : R;
  trace : list Event
}.
Arguments remote {R} _.
Arguments trace {R} _.

Inductive Outcome (A : Type) : Type :=
| Returned (a : A)
| Panicked.
Arguments Returned {A} a.
Arguments Panicked {A}.

Definition M (R A : Type) : Type := World R -> Outcome A * World R.

Definition ret {R A : Type} (a : A) : M R A := fun w => (Returned a, w).

Definition bind {R A B : Type} (m : M R A) (k : A -> M R B) : M R B :=
  fun w =>
    match m w with
    | (Returned a, w') => k a w'
    | (Panicked, w') => (Panicked, w')
    end.

Definition panic {R A : Type} : M R A := fun w => (Panicked, w).

Notation "x <- m ;; k" := (bind m (fun x => k))
  (at level 100, m at next level, right associativity).

(** One remote call: the client's answer, the new remote state, one more
    event in the trace. *)
Definition remote_call {R A : Type} (c : tfe.Call) (f : R -> Go.result A * R)
  : M R (Go.result A) :=
  fun w =>
    let '(r, s) := f (remote w) in
    (Returned r, {| remote := s; trace := trace w ++ [{| call := c; failed := Go.failure r |}] |}).

(** ** Requests and responses

    The framework's response structs all carry a state and the
    diagnostics; the callbacks update both in place through a pointer,
    here they take the response and return the updated one. *)

Record Response : Type := {
  State : gmap string attrValue;
  Diags : Diagnostics
}.

Record CreateRequest : Type := {
  Create_Config : gmap string attrValue;
  Create_Plan : gmap string attrValue
}.

Record ReadRequest : Type := {
  Read_State : gmap string attrValue
}.

Record UpdateRequest : Type := {
  Update_Config : gmap string attrValue;
  Update_Plan : gmap string attrValue;
  Update_State : gmap string attrValue
}.

Record DeleteRequest : Type := {
  Delete_State : gmap string attrValue
}.

Record ImportStateRequest : Type := {
  Import_ID : string
}.

Definition Diagnostics_Append (resp : Response) (ds : Diagnostics) : Response :=
  {| State := State resp; Diags := Append (Diags resp) ds |}.

Definition Diagnostics_AddError (resp : Response) (s d : string) : Response :=
  {| State := State resp; Diags := AddError (Diags resp) s d |}.

(** [resp.Diagnostics.Append(resp.State.Set(ctx, &result)...)] *)
Definition State_Set (resp : Response) (result : modelTFEDataRetentionPolicy) : Response :=
  let '(ds, st) := Set_ result in
  {| State := st; Diags := Append (Diags resp) ds |}.

(** [resp.Diagnostics.Append(resp.State.SetAttribute(ctx, path.Root(name), v)...)] *)
Definition State_SetAttribute (resp : Response) (name : string) (v : string) : Response :=
  let '(ds, st) := SetAttribute (State resp) name (AttrString (StringValue v)) in
  {| State := st; Diags := Append (Diags resp) ds |}.

(** Modelled from the spec: the struct [ConfiguredClient] is declared in
    another file of the provider.  It holds the configured remote client
    and the provider's default organization, which may be missing. *)
Module ConfiguredClient.
Record t (R : Type) : Type := {
  Client : tfe.Client R;
  Organization : option string
}.
Arguments Client {R} _.
Arguments Organization {R} _.
End ConfiguredClient.

(** ** The resource *)

Section Resource.

(** The states of the remote system. *)
Context {R : Type}.

(** The size of Go's [int] on the platform, 32 or 64. *)
Variable intSize : Z.

(** Functions of the provider that other files define: the method
    [dataOrDefaultOrganization] of the configured client, which writes
    the organization to use through its last argument, and the three
    conversions from an API result to a model. *)
Variable dataOrDefaultOrganization :
  ConfiguredClient.t R -> gmap string attrValue -> string -> Diagnostics * string.
Variable modelFromTFEDataRetentionPolicyDeleteOlder :
  modelTFEDataRetentionPolicy -> tfe.DataRetentionPolicyDeleteOlder ->
  modelTFEDataRetentionPolicy * Diagnostics.
Variable modelFromTFEDataRetentionPolicyDontDelete :
  modelTFEDataRetentionPolicy -> tfe.DataRetentionPolicyDontDelete ->
  modelTFEDataRetentionPolicy.
Variable modelFromTFEDataRetentionPolicyChoice :
  modelTFEDataRetentionPolicy -> tfe.DataRetentionPolicyChoice ->
  modelTFEDataRetentionPolicy * Diagnostics.

Record resourceTFEDataRetentionPolicy : Type := {
  config : ConfiguredClient.t R
}.

(** [int(x)] for an [int64] [x]. *)
Definition int (x : Z) : Z := Go.wrap intSize x.

Definition Organizations_SetDataRetentionPolicyDeleteOlder
    (r : resourceTFEDataRetentionPolicy) (organization : string)
    (options : tfe.DataRetentionPolicyDeleteOlderSetOptions) :=
  remote_call (tfe.SetDeleteOlder tfe.Organizations organization options)
    (tfe.SetDataRetentionPolicyDeleteOlder (ConfiguredClient.Client (config r))
       tfe.Organizations organization options).

Definition Workspaces_SetDataRetentionPolicyDeleteOlder
    (r : resourceTFEDataRetentionPolicy) (workspaceID : string)
    (options : tfe.DataRetentionPolicyDeleteOlderSetOptions) :=
  remote_call (tfe.SetDeleteOlder tfe.Workspaces workspaceID options)
    (tfe.SetDataRetentionPolicyDeleteOlder (ConfiguredClient.Client (config r))
       tfe.Workspaces workspaceID options).

Definition Organizations_SetDataRetentionPolicyDontDelete
    (r : resourceTFEDataRetentionPolicy) (organization : string)
    (options : tfe.DataRetentionPolicyDontDeleteSetOptions) :=
  remote_call (tfe.SetDontDelete tfe.Organizations organization options)
    (tfe.SetDataRetentionPolicyDontDelete (ConfiguredClient.Client (config r))
       tfe.Organizations organization options).

Definition Workspaces_SetDataRetentionPolicyDontDelete
    (r : resourceTFEDataRetentionPolicy) (workspaceID : string)
    (options : tfe.DataRetentionPolicyDontDeleteSetOptions) :=
  remote_call (tfe.SetDontDelete tfe.Workspaces workspaceID options)
    (tfe.SetDataRetentionPolicyDontDelete (ConfiguredClient.Client (config r))
       tfe.Workspaces workspaceID options).

Definition Organizations_ReadDataRetentionPolicyChoice
    (r : resourceTFEDataRetentionPolicy) (organization : string) :=
  remote_call (tfe.ReadChoice tfe.Organizations organization)
    (tfe.ReadDataRetentionPolicyChoice (ConfiguredClient.Client (config r))
       tfe.Organizations organization).

Definition Workspaces_ReadDataRetentionPolicyChoice
    (r : resourceTFEDataRetentionPolicy) (workspaceID : string) :=
  remote_call (tfe.ReadChoice tfe.Workspaces workspaceID)
    (tfe.ReadDataRetentionPolicyChoice (ConfiguredClient.Client (config r))
       tfe.Workspaces workspaceID).

Definition createDeleteOlderThanRetentionPolicy
    (r : resourceTFEDataRetentionPolicy) (plan : modelTFEDataRetentionPolicy)
    (resp : Response) : M R Response :=
  let deleteOlderThan := Some {| Days := NumberNull |} in
  let '(diags, deleteOlderThan) := As (DeleteOlderThan plan) deleteOlderThan in
  if HasError diags then ret (Diagnostics_Append resp diags)
  else
    (* deleteOlderThan.Days dereferences the pointer, Int64 its receiver *)
    match deleteOlderThan with
    | None => panic
    | Some deleteOlderThan =>
        match ValueBigFloat (Days deleteOlderThan) with
        | None => panic
        | Some days =>
            let deleteOlderThanDays := BigFloat.Int64 days in
            let options :=
              {| tfe.DeleteOlderThanNDays := int deleteOlderThanDays |} in
            res <- (if String_IsNull (WorkspaceId plan)
                    then Organizations_SetDataRetentionPolicyDeleteOlder r
                           (ValueString (Organization plan)) options
                    else Workspaces_SetDataRetentionPolicyDeleteOlder r
                           (ValueString (WorkspaceId plan)) options) ;;
            match res with
            | Go.Err err =>
                ret (Diagnostics_AddError resp
                       "Unable to create data retention policy" err)
            | Go.Ok dataRetentionPolicy =>
                let '(result, diags) :=
                  modelFromTFEDataRetentionPolicyDeleteOlder plan dataRetentionPolicy in
                if HasError diags then ret (Diagnostics_Append resp diags)
                else ret (State_Set resp result)
            end
        end
    end.

Definition createDontDeleteRetentionPolicy
    (r : resourceTFEDataRetentionPolicy) (plan : modelTFEDataRetentionPolicy)
    (resp : Response) : M R Response :=
  let deleteOlderThan := Some {| Days := NumberNull |} in
  let '(diags, deleteOlderThan) := As (DeleteOlderThan plan) deleteOlderThan in
  if HasError diags then ret (Diagnostics_Append resp diags)
  else
    let options := tfe.NoDontDeleteSetOptions in
    res <- (if String_IsNull (WorkspaceId plan)
            then Organizations_SetDataRetentionPolicyDontDelete r
                   (ValueString (Organization plan)) options
            else Workspaces_SetDataRetentionPolicyDontDelete r
                   (ValueString (WorkspaceId plan)) options) ;;
    match res with
    | Go.Err err =>
        ret (Diagnostics_AddError resp
               "Unable to create data retention policy" err)
    | Go.Ok dataRetentionPolicy =>
        let result :=
          modelFromTFEDataRetentionPolicyDontDelete plan dataRetentionPolicy in
        ret (State_Set resp result)
    end.

Definition Create (r : resourceTFEDataRetentionPolicy) (req : CreateRequest)
    (resp : Response) : M R Response :=
  let '(diags, plan) := Get (Create_Plan req) in
  let resp := Diagnostics_Append resp diags in
  if HasError (Diags resp) then ret resp
  else
    let organization := "" in
    let '(resp, plan) :=
      if String_IsNull (WorkspaceId plan) then
        let '(diags, organization) :=
          dataOrDefaultOrganization (config r) (Create_Plan req) organization in
        (Diagnostics_Append resp diags,
         set_Organization (StringValue organization) plan)
      else (resp, plan) in
    if HasError (Diags resp) then ret resp
    else if negb (Object_IsNull (DeleteOlderThan plan)) then
      createDeleteOlderThanRetentionPolicy r plan resp
    else if negb (Object_IsNull (DontDelete plan)) then
      createDontDeleteRetentionPolicy r plan resp
    else ret resp.

Definition Read (r : resourceTFEDataRetentionPolicy) (req : ReadRequest)
    (resp : Response) : M R Response :=
  let '(diags, state) := Get (Read_State req) in
  let resp := Diagnostics_Append resp diags in
  if HasError (Diags resp) then ret resp
  else
    res <- (if String_IsNull (WorkspaceId state)
            then Organizations_ReadDataRetentionPolicyChoice r
                   (ValueString (Organization state))
            else Workspaces_ReadDataRetentionPolicyChoice r
                   (ValueString (WorkspaceId state))) ;;
    match res with
    | Go.Err err =>
        ret (Diagnostics_AddError resp "Failed to read data retention policy" err)
    | Go.Ok policy =>
        let '(result, diags) := modelFromTFEDataRetentionPolicyChoice state policy in
        if HasError diags then ret (Diagnostics_Append resp diags)
        else ret (State_Set resp result)
    end.

Definition Update (r : resourceTFEDataRetentionPolicy) (req : UpdateRequest)
    (resp : Response) : M R Response :=
  ret (Diagnostics_AddError resp "Update not supported"
         "The update operation is not supported on this resource. This is a bug in the provider.").

(** The body of [Delete] is commented out. *)
Definition Delete (r : resourceTFEDataRetentionPolicy) (req : DeleteRequest)
    (resp : Response) : M R Response :=
  ret resp.

Definition ImportState (r : resourceTFEDataRetentionPolicy) (req : ImportStateRequest)
    (resp : Response) : M R Response :=
  let s := strings.SplitN (Import_ID req) "/" 2 in
  match s with
  | [org; id] =>
      let resp := State_SetAttribute resp "organization" org in
      let resp := State_SetAttribute resp "id" id in
      ret resp
  | _ =>
      (* len(s) != 2 *)
      ret (Diagnostics_AddError resp "Error importing variable"
             ("Invalid variable import format: " +:+ Import_ID req
              +:+ " (expected <ORGANIZATION>/<KEY ID>)"))
  end.

End Resource.

Arguments resourceTFEDataRetentionPolicy : clear implicits.

(** Modelled from the spec: the method [dataOrDefaultOrganization] of
    [ConfiguredClient] is defined in another file of the provider.
    Section 4.1 of the spec: without a workspace the scope is the declared
    organization or else the provider's default organization, and the
    resolution "fails with ConfigurationError if neither is available".
    The declared organization is read from the plan; on failure the
    target keeps its value. *)
Definition ConfiguredClient_dataOrDefaultOrganization {R : Type}
    (c : ConfiguredClient.t R) (data : gmap string attrValue) (target : string)
  : Diagnostics * string :=
  match snd (get_string data "organization") with
  | StringValue declaredOrganization => ([], declaredOrganization)
  | _ =>
      match ConfiguredClient.Organization c with
      | Some providerDefaultOrganization => ([], providerDefaultOrganization)
      | None =>
          ([NewErrorDiagnostic "ConfigurationError"
              "no organization is declared and the provider has no default organization"],
           target)
      end
  end.

(** ** Stand-ins to run the callbacks on concrete inputs

    A remote system that counts the calls it receives and accepts them
    all, one that refuses them all, and conversions that copy the
    remote identifier into the model. *)

Module Fake.

Definition accepting : tfe.Client nat := {|
  tfe.SetDataRetentionPolicyDeleteOlder := fun _ _ options n =>
    (Go.Ok {| tfe.DeleteOlder_ID := "drp-1";
              tfe.DeleteOlder_DeleteOlderThanNDays := tfe.DeleteOlderThanNDays options |},
     S n);
  tfe.SetDataRetentionPolicyDontDelete := fun _ _ _ n =>
    (Go.Ok {| tfe.DontDelete_ID := "drp-2" |}, S n);
  tfe.ReadDataRetentionPolicyChoice := fun _ _ n =>
    (Go.Ok {| tfe.Choice_DeleteOlder := None;
              tfe.Choice_DontDelete := Some {| tfe.DontDelete_ID := "drp-2" |} |},
     S n)
|}.

Definition refusing : tfe.Client nat := {|
  tfe.SetDataRetentionPolicyDeleteOlder := fun _ _ _ n => (Go.Err "forbidden", S n);
  tfe.SetDataRetentionPolicyDontDelete := fun _ _ _ n => (Go.Err "forbidden", S n);
  tfe.ReadDataRetentionPolicyChoice := fun _ _ n => (Go.Err "forbidden", S n)
|}.

Definition with_ID (id : string) (m : modelTFEDataRetentionPolicy)
  : modelTFEDataRetentionPolicy :=
  {| ID := StringValue id; Organization := Organization m;
     WorkspaceId := WorkspaceId m; DeleteOlderThan := DeleteOlderThan m;
     DontDelete := DontDelete m |}.

Definition fromDeleteOlder (m : modelTFEDataRetentionPolicy)
    (p : tfe.DataRetentionPolicyDeleteOlder) :=
  (with_ID (tfe.DeleteOlder_ID p) m, @nil Diagnostic).

Definition fromDontDelete (m : modelTFEDataRetentionPolicy)
    (p : tfe.DataRetentionPolicyDontDelete) :=
  with_ID (tfe.DontDelete_ID p) m.

Definition fromChoice (m : modelTFEDataRetentionPolicy)
    (p : tfe.DataRetentionPolicyChoice) :=
  (m, @nil Diagnostic).

Definition resource (c : tfe.Client nat) (org : option string)
  : resourceTFEDataRetentionPolicy nat :=
  {| config := {| ConfiguredClient.Client := c; ConfiguredClient.Organization := org |} |}.

Definition world0 : World nat := {| remote := O; trace := [] |}.

Definition resp0 : Response := {| State := ∅; Diags := [] |}.

Definition days (f : BigFloat.t) : tfObject :=
  ObjectValue {[ "days" := NumberValue f ]}.

(** Plans: delete data older than 30 days in workspace [ws-123]; never
    delete in the organization of the provider; neither block, in
    workspace [ws-123]. *)
Definition plan_older_ws : gmap string attrValue :=
  {[ "workspace_id" := AttrString (StringValue "ws-123");
     "delete_older_than" := AttrObject (days BigFloat.thirty) ]}.

Definition plan_dont_org : gmap string attrValue :=
  {[ "dont_delete" := AttrObject (ObjectValue ∅) ]}.

Definition plan_neither : gmap string attrValue :=
  {[ "workspace_id" := AttrString (StringValue "ws-123") ]}.

(** The decoded model of a plan for workspace [ws-123] that deletes data
    older than [f] days. *)
Definition model_older_ws (f : BigFloat.t) : modelTFEDataRetentionPolicy :=
  {| ID := StringUnknown; Organization := StringNull;
     WorkspaceId := StringValue "ws-123";
     DeleteOlderThan := days f; DontDelete := ObjectNull |}.

Definition create (c : tfe.Client nat) (org : option string)
    (plan : gmap string attrValue) :=
  Create 64 ConfiguredClient_dataOrDefaultOrganization fromDeleteOlder fromDontDelete
    (resource c org) {| Create_Config := plan; Create_Plan := plan |} resp0 world0.

(** Further plans and states: a [workspace_id] of the wrong kind; an
    unknown [delete_older_than] block; a block whose [days] is unknown;
    the state of a policy of organization [acme]. *)
Definition plan_bad_kind : gmap string attrValue :=
  {[ "workspace_id" := AttrObject ObjectNull ]}.

Definition plan_unknown_block : gmap string attrValue :=
  {[ "workspace_id" := AttrString (StringValue "ws-123");
     "delete_older_than" := AttrObject ObjectUnknown ]}.

Definition plan_days_unknown : gmap string attrValue :=
  {[ "delete_older_than" := AttrObject (ObjectValue {[ "days" := NumberUnknown ]}) ]}.

Definition state_org : gmap string attrValue :=
  {[ "id" := AttrString (StringValue "drp-2");
     "organization" := AttrString (StringValue "acme");
     "dont_delete" := AttrObject (ObjectValue ∅) ]}.

Definition read (c : tfe.Client nat) (state : gmap string attrValue) :=
  Read fromChoice (resource c None) {| Read_State := state |} resp0 world0.

End Fake.

(** ** Notions used by the properties *)

(** A failed call, in the words of the three places that make one. *)
Definition surfaced (summary : string) (err : Go.error) (resp : Response)
    (out : Outcome Response) : Prop :=
  exists resp',
    out = Returned resp' /\
    State resp' = State resp /\
    NewErrorDiagnostic summary err ∈ Diags resp' /\
    HasError (Diags resp') = true.

(** A plan or state with the organization attribute replaced, or removed. *)
Definition with_organization (o : option tfString) (data : gmap string attrValue)
  : gmap string attrValue :=
  match o with
  | Some v => <["organization" := AttrString v]> data
  | None => delete "organization" data
  end.

(** The event is a call of the workspace family at the given address. *)
Definition to_workspace (id : string) (e : Event) : Prop :=
  tfe.family (call e) = tfe.Workspaces /\ tfe.address (call e) = id.

(** The event is a call of the organization family at the given address. *)
Definition to_organization (name : string) (e : Event) : Prop :=
  tfe.family (call e) = tfe.Organizations /\ tfe.address (call e) = name.

(** [i] is the integer part of [n / d], for [d > 0], rounded toward
    zero: it has the sign of the fraction and the largest magnitude not
    above the fraction's. *)
Definition rounds_toward_zero (n d i : Z) : Prop :=
  Z.abs i * d <= Z.abs n < (Z.abs i + 1) * d /\ 0 <= i * n.

Definition set_DeleteOlderThan (o : tfObject) (m : modelTFEDataRetentionPolicy)
  : modelTFEDataRetentionPolicy :=
  {| ID := ID m; Organization := Organization m; WorkspaceId := WorkspaceId m;
     DeleteOlderThan := o; DontDelete := DontDelete m |}.

(** The family and the address a branch of [Create] calls. *)
Definition target (m : modelTFEDataRetentionPolicy) : tfe.Family * string :=
  if String_IsNull (WorkspaceId m)
  then (tfe.Organizations, ValueString (Organization m))
  else (tfe.Workspaces, ValueString (WorkspaceId m)).

(** The string has a ['/'] in it. *)
Definition contains_slash (s : string) : Prop :=
  exists a b, s = a +:+ "/" +:+ b.

(** The response of a successful import of [org] and [id]. *)
Definition imported (resp : Response) (org id : string) : Response :=
  {| State := <["id" := AttrString (StringValue id)]>
                (<["organization" := AttrString (StringValue org)]> (State resp));
     Diags := Diags resp |}.

(** The diagnostic of a refused import. *)
Definition import_format_error (ID : string) : Diagnostic :=
  NewErrorDiagnostic "Error importing variable"
    ("Invalid variable import format: " +:+ ID +:+ " (expected <ORGANIZATION>/<KEY ID>)").

(** The organization [ConfiguredClient_dataOrDefaultOrganization] finds:
    the declared one, or else the provider's default. *)
Definition resolved_organization {R : Type} (c : ConfiguredClient.t R)
    (data : gmap string attrValue) : option string :=
  match (get_string data "organization").2 with
  | StringValue declaredOrganization => Some declaredOrganization
  | _ => ConfiguredClient.Organization c
  end.

Definition configuration_error : Diagnostic :=
  NewErrorDiagnostic "ConfigurationError"
    "no organization is declared and the provider has no default organization".

(** ** Notions used by the further properties *)

Definition is_ReadChoice (c : tfe.Call) : bool :=
  match c with tfe.ReadChoice _ _ => true | _ => false end.

(** The family and the address of a call, as a pair. *)
Definition call_target (c : tfe.Call) : tfe.Family * string :=
  (tfe.family c, tfe.address c).

(** A [delete_older_than] block as it is at apply time under the
    schema: absent, or with a known number of days. *)
Definition decodable (o : tfObject) : Prop :=
  o = ObjectNull \/ exists f, o = ObjectValue {[ "days" := NumberValue f ]}.

(** ** Configure

    [req.ProviderData] is an [any]: nil, a [ConfiguredClient], or a value
    of some other type, of which the message prints the type with [%T]. *)
Inductive ProviderData (R : Type) : Type :=
| ProviderData_nil
| ProviderData_ConfiguredClient (client : ConfiguredClient.t R)
| ProviderData_other (typeName : string).
Arguments ProviderData_nil {R}.
Arguments ProviderData_ConfiguredClient {R} client.
Arguments ProviderData_other {R} typeName.

(** [Configure] updates the receiver and the diagnostics of its response.
    A failed type assertion leaves the zero value in [client], and the
    assignment to [r.config] follows it all the same; [zero] is that
    zero value of [ConfiguredClient]. *)
Definition Configure {R : Type} (zero : ConfiguredClient.t R)
    (r : resourceTFEDataRetentionPolicy R) (data : ProviderData R)
    (diags : Diagnostics) : resourceTFEDataRetentionPolicy R * Diagnostics :=
  match data with
  | ProviderData_nil => (r, diags)
  | ProviderData_ConfiguredClient client => ({| config := client |}, diags)
  | ProviderData_other typeName =>
      ({| config := zero |},
       AddError diags "Unexpected resource Configure type"
         ("Expected tfe.ConfiguredClient, got " +:+ typeName
          +:+ ". This is a bug in the tfe provider, so please report it on GitHub."))
  end.


(** The plan [Create] hands to a branch: the decoded plan, with the
    organization that the lookup returned written into it when there is
    no workspace. *)
Definition dispatched_plan {R : Type}
    (lookup : ConfiguredClient.t R -> gmap string attrValue -> string
              -> Diagnostics * string)
    (r : resourceTFEDataRetentionPolicy R) (req : CreateRequest)
  : modelTFEDataRetentionPolicy :=
  let plan := (Get (Create_Plan req)).2 in
  if String_IsNull (WorkspaceId plan)
  then set_Organization (StringValue (lookup (config r) (Create_Plan req) "").2) plan
  else plan.

(** * Properties *)

(** ** Diagnostics *)

Lemma Contains_elem_of (ds : Diagnostics) (d : Diagnostic) :
  Contains ds d = true <-> d ∈ ds.
Proof.
  unfold Contains. induction ds as [|d' ds IH]; simpl.
  - split; [discriminate | intros H; inversion H].
  - rewrite orb_true_iff, IH, bool_decide_eq_true, elem_of_cons.
    intuition congruence.
Qed.

Lemma HasError_elem_of (ds : Diagnostics) (d : Diagnostic) :
  d ∈ ds -> is_error d = true -> HasError ds = true.
Proof.
  unfold HasError. intros Hin Herr. apply existsb_exists.
  exists d. split; [by apply list_elem_of_In | done].
Qed.

Lemma HasError_app (ds1 ds2 : Diagnostics) :
  HasError (ds1 ++ ds2) = HasError ds1 || HasError ds2.
Proof. apply existsb_app. Qed.

Lemma HasError_Append (ds new : Diagnostics) :
  HasError (Append ds new) = HasError ds || HasError new.
Proof.
  revert ds. induction new as [|d new IH]; intros ds; simpl.
  - by rewrite orb_false_r.
  - rewrite IH. destruct (Contains ds d) eqn:Hc.
    + apply Contains_elem_of in Hc.
      destruct (is_error d) eqn:Hd; simpl; [|done].
      by rewrite (HasError_elem_of ds d Hc Hd).
    + rewrite HasError_app. simpl. by rewrite orb_false_r, orb_assoc.
Qed.

Lemma elem_of_Append (ds new : Diagnostics) (d : Diagnostic) :
  d ∈ Append ds new <-> d ∈ ds \/ d ∈ new.
Proof.
  revert ds. induction new as [|d' new IH]; intros ds; simpl.
  - split; [auto | intros [H|H]; [done | inversion H]].
  - rewrite IH, elem_of_cons. destruct (Contains ds d') eqn:Hc.
    + apply Contains_elem_of in Hc. intuition congruence.
    + rewrite elem_of_app, list_elem_of_singleton. tauto.
Qed.

Lemma Append_nil (ds : Diagnostics) : Append ds [] = ds.
Proof. reflexivity. Qed.

Lemma AddError_elem_of (ds : Diagnostics) (s d : string) :
  NewErrorDiagnostic s d ∈ AddError ds s d.
Proof. unfold AddError. apply elem_of_Append. right. by apply list_elem_of_singleton. Qed.

Lemma HasError_AddError (ds : Diagnostics) (s d : string) :
  HasError (AddError ds s d) = true.
Proof. unfold AddError. rewrite HasError_Append. simpl. by rewrite orb_true_r. Qed.

(** ** The conversion of the number of days *)

Lemma trunc_rounds_toward_zero (m e : Z) :
  rounds_toward_zero (BigFloat.numerator m e) (BigFloat.denominator m e)
    (BigFloat.trunc m e).
Proof.
  unfold rounds_toward_zero, BigFloat.numerator, BigFloat.denominator, BigFloat.trunc.
  destruct (0 <=? e) eqn:He.
  - split; [lia | nia].
  - apply Z.leb_gt in He.
    assert (Hd : 0 < 2 ^ (- e)) by (apply Z.pow_pos_nonneg; lia).
    set (d := 2 ^ (- e)) in *.
    assert (Habs : Z.abs (m ÷ d) = Z.abs m / d).
    { rewrite <- Z.quot_abs by lia. rewrite (Z.abs_eq d) by lia.
      apply Z.quot_div_nonneg; lia. }
    rewrite Habs. split.
    + pose proof (Z.mul_div_le (Z.abs m) d Hd).
      pose proof (Z.mul_succ_div_gt (Z.abs m) d Hd). lia.
    + destruct (Z.le_ge_cases 0 m) as [Hm|Hm].
      * pose proof (Z.quot_pos m d Hm Hd). nia.
      * assert (m ÷ d <= 0).
        { rewrite <- (Z.opp_involutive m), Z.quot_opp_l by lia.
          pose proof (Z.quot_pos (- m) d ltac:(lia) Hd). lia. }
        nia.
Qed.

Lemma wrap_in_range (w x : Z) :
  0 < w -> - 2 ^ (w - 1) <= x < 2 ^ (w - 1) -> Go.wrap w x = x.
Proof.
  intros Hw Hx. unfold Go.wrap.
  assert (H2 : 2 ^ w = 2 * 2 ^ (w - 1)).
  { rewrite <- Z.pow_succ_r by lia. f_equal. lia. }
  rewrite Z.mod_small by lia. lia.
Qed.

Lemma Int64_in_range (m e : Z) :
  Go.MinInt64 <= BigFloat.trunc m e <= Go.MaxInt64 ->
  BigFloat.Int64 (BigFloat.Finite m e) = BigFloat.trunc m e.
Proof.
  intros H. unfold BigFloat.Int64.
  destruct (Z.ltb_spec (BigFloat.trunc m e) Go.MinInt64); [lia|].
  destruct (Z.ltb_spec Go.MaxInt64 (BigFloat.trunc m e)); [lia|]. done.
Qed.

(** Whatever is decoded, the result of [Int64] is an [int64]. *)
Lemma Int64_bounds (f : BigFloat.t) :
  Go.MinInt64 <= BigFloat.Int64 f <= Go.MaxInt64.
Proof.
  unfold BigFloat.Int64, Go.MinInt64, Go.MaxInt64.
  destruct f as [m e|[]]; [|lia..].
  repeat case_match; lia.
Qed.

(** ** Splitting at the first separator *)

Lemma append_nil_l (s : string) : "" +:+ s = s.
Proof. reflexivity. Qed.

Lemma append_cons (c : ascii) (a b : string) : String c a +:+ b = String c (a +:+ b).
Proof. reflexivity. Qed.

Lemma HasPrefix_slash (s : string) :
  strings.HasPrefix s "/" = match s with
                            | String c _ => Ascii.eqb "/"%char c
                            | EmptyString => false
                            end.
Proof.
  destruct s as [|c s]; cbn [strings.HasPrefix]; [done|].
  replace (strings.HasPrefix s "") with true by (by destruct s).
  apply andb_true_r.
Qed.

Lemma contains_slash_cons (c : ascii) (s : string) :
  contains_slash (String c s) <-> c = "/"%char \/ contains_slash s.
Proof.
  split.
  - intros ([|c' a] & b & H).
    + rewrite append_nil_l, append_cons, append_nil_l in H. simplify_eq. by left.
    + rewrite append_cons in H. simplify_eq. right. by exists a, b.
  - intros [-> | (a & b & ->)].
    + by exists "", s.
    + by exists (String c a), b.
Qed.

Lemma contains_slash_empty : ~ contains_slash "".
Proof. intros ([|c a] & b & H); discriminate H. Qed.

Lemma Index_no_slash (s : string) :
  ~ contains_slash s -> strings.Index s "/" = -1.
Proof.
  induction s as [|c s IH]; intros H; [done|].
  rewrite contains_slash_cons in H.
  cbn [strings.Index]. rewrite HasPrefix_slash.
  destruct (Ascii.eqb_spec "/"%char c) as [<-|Hc]; [tauto|].
  rewrite IH by tauto. done.
Qed.

Lemma Index_first_slash (org rest : string) :
  ~ contains_slash org ->
  strings.Index (org +:+ "/" +:+ rest) "/" = strings.len org.
Proof.
  unfold strings.len.
  induction org as [|c org IH]; intros H.
  - rewrite append_nil_l, append_cons. cbn [strings.Index]. by rewrite HasPrefix_slash.
  - rewrite contains_slash_cons in H. rewrite append_cons.
    cbn [strings.Index]. rewrite HasPrefix_slash.
    destruct (Ascii.eqb_spec "/"%char c) as [<-|Hc]; [tauto|].
    rewrite IH by tauto.
    destruct (Z.ltb_spec (Z.of_nat (String.length org)) 0); [lia|].
    cbn [String.length]. lia.
Qed.

Lemma take_append (a b : string) : strings.take (String.length a) (a +:+ b) = a.
Proof.
  induction a as [|c a IH].
  - by destruct b.
  - rewrite append_cons. cbn [String.length strings.take]. by rewrite IH.
Qed.

Lemma drop_append (a b : string) : strings.drop (String.length a) (a +:+ b) = b.
Proof.
  induction a as [|c a IH].
  - by destruct b.
  - rewrite append_cons. cbn [String.length strings.drop]. exact IH.
Qed.

Lemma first_slash (s : string) :
  contains_slash s ->
  exists org rest, s = org +:+ "/" +:+ rest /\ ~ contains_slash org.
Proof.
  induction s as [|c s IH]; intros H.
  - by apply contains_slash_empty in H.
  - destruct (Ascii.eqb_spec "/"%char c) as [<-|Hc].
    + exists "", s. split; [done | apply contains_slash_empty].
    + apply contains_slash_cons in H as [->|H]; [done|].
      destruct (IH H) as (org & rest & -> & Hn).
      exists (String c org), rest. split; [done|].
      rewrite contains_slash_cons. intros [->|?]; tauto.
Qed.

Lemma append_assoc (a b c : string) : (a +:+ b) +:+ c = a +:+ b +:+ c.
Proof.
  induction a as [|x a IH]; [done|]. rewrite !append_cons. by rewrite IH.
Qed.

Lemma len_append (a b : string) : strings.len (a +:+ b) = strings.len a + strings.len b.
Proof.
  unfold strings.len. induction a as [|c a IH]; [by rewrite append_nil_l|].
  rewrite append_cons. cbn [String.length]. lia.
Qed.

Lemma SplitN_slash (org rest : string) :
  ~ contains_slash org ->
  strings.SplitN (org +:+ "/" +:+ rest) "/" 2 = [org; rest].
Proof.
  intros H. unfold strings.SplitN, strings.genSplit.
  assert (Hlen : 1 <= strings.len (org +:+ "/" +:+ rest)).
  { rewrite !len_append. unfold strings.len. cbn [String.length]. lia. }
  change (2 =? 0) with false. change (2 <? 0) with false. cbv iota.
  destruct (Z.ltb_spec (strings.len (org +:+ "/" +:+ rest) + 1) 2); [lia|].
  change (Z.to_nat (2 - 1)) with 1%nat. cbn [strings.genSplit_loop].
  rewrite Index_first_slash by done.
  destruct (Z.ltb_spec (strings.len org) 0); [unfold strings.len in *; lia|].
  unfold strings.len at 1 2. rewrite Z.add_0_r, Nat2Z.id, take_append.
  replace (Z.to_nat (Z.of_nat (String.length org) + strings.len "/"))
    with (String.length (org +:+ "/")).
  - by rewrite <- append_assoc, drop_append.
  - pose proof (len_append org "/") as Hl. unfold strings.len in *.
    change (String.length "/") with 1%nat in *. lia.
Qed.

Lemma SplitN_no_slash (s : string) :
  ~ contains_slash s -> strings.SplitN s "/" 2 = [s].
Proof.
  intros H. unfold strings.SplitN, strings.genSplit.
  change (2 =? 0) with false. change (2 <? 0) with false. cbv iota.
  destruct (Z.to_nat _) as [|k]; [done|].
  cbn [strings.genSplit_loop]. by rewrite Index_no_slash.
Qed.

Ltac unfold_calls :=
  unfold Organizations_SetDataRetentionPolicyDeleteOlder,
    Workspaces_SetDataRetentionPolicyDeleteOlder,
    Organizations_SetDataRetentionPolicyDontDelete,
    Workspaces_SetDataRetentionPolicyDontDelete,
    Organizations_ReadDataRetentionPolicyChoice,
    Workspaces_ReadDataRetentionPolicyChoice, remote_call, bind, ret, panic in *.

Ltac step := first [progress simplify_eq/= | case_match].

Section Properties.

Context {R : Type}.
Variable intSize : Z.
Variable dataOrDefaultOrganization :
  ConfiguredClient.t R -> gmap string attrValue -> string -> Diagnostics * string.
Variable fromDeleteOlder :
  modelTFEDataRetentionPolicy -> tfe.DataRetentionPolicyDeleteOlder ->
  modelTFEDataRetentionPolicy * Diagnostics.
Variable fromDontDelete :
  modelTFEDataRetentionPolicy -> tfe.DataRetentionPolicyDontDelete ->
  modelTFEDataRetentionPolicy.
Variable fromChoice :
  modelTFEDataRetentionPolicy -> tfe.DataRetentionPolicyChoice ->
  modelTFEDataRetentionPolicy * Diagnostics.

Local Abbreviation createDeleteOlderThan :=
  (createDeleteOlderThanRetentionPolicy intSize fromDeleteOlder).
Local Abbreviation createDontDelete :=
  (createDontDeleteRetentionPolicy fromDontDelete).
Local Abbreviation create :=
  (Create intSize dataOrDefaultOrganization fromDeleteOlder fromDontDelete).
Local Abbreviation read := (Read fromChoice).

Implicit Types (r : resourceTFEDataRetentionPolicy R) (w : World R)
  (resp : Response) (plan : modelTFEDataRetentionPolicy).

(** What a branch of [Create] does to the trace: nothing, or one call
    of its own kind. *)
Lemma createDeleteOlderThan_trace r plan resp w :
  trace (createDeleteOlderThan r plan resp w).2 = trace w \/
  exists f a o e,
    trace (createDeleteOlderThan r plan resp w).2
    = trace w ++ [{| call := tfe.SetDeleteOlder f a o; failed := e |}].
Proof.
  unfold createDeleteOlderThanRetentionPolicy. unfold_calls.
  repeat step; eauto 10.
Qed.

Lemma createDontDelete_trace r plan resp w :
  trace (createDontDelete r plan resp w).2 = trace w \/
  exists f a o e,
    trace (createDontDelete r plan resp w).2
    = trace w ++ [{| call := tfe.SetDontDelete f a o; failed := e |}].
Proof.
  unfold createDontDeleteRetentionPolicy. unfold_calls.
  repeat step; eauto 10.
Qed.


(** The events a run added to the trace. *)
Lemma trace_same (l evs : list Event) : l = l ++ evs -> evs = [].
Proof. intros H. apply (app_inv_head l). by rewrite app_nil_r. Qed.

Lemma trace_one (l evs : list Event) (e : Event) : l ++ [e] = l ++ evs -> evs = [e].
Proof. intros H. symmetry. by apply (app_inv_head l). Qed.

Lemma create_trace r req resp w :
  trace (create r req resp w).2 = trace w \/
  (exists f a o e,
      trace (create r req resp w).2
      = trace w ++ [{| call := tfe.SetDeleteOlder f a o; failed := e |}]) \/
  (exists f a o e,
      trace (create r req resp w).2
      = trace w ++ [{| call := tfe.SetDontDelete f a o; failed := e |}]).
Proof.
  unfold Create.
  repeat first [ progress simplify_eq/= | progress unfold ret | case_match ]; auto;
    match goal with
    | |- context [createDeleteOlderThanRetentionPolicy _ _ ?r' ?p ?rs ?w'] =>
        destruct (createDeleteOlderThan_trace r' p rs w') as [?|?]; auto
    | |- context [createDontDeleteRetentionPolicy _ ?r' ?p ?rs ?w'] =>
        destruct (createDontDelete_trace r' p rs w') as [?|?]; auto
    end.
Qed.

(** C1 (as amended). [Create] makes at most one remote call, so never
    both a "set delete-older-than" and a "set don't-delete".  When the
    plan has neither block, [Create] returns without a remote call,
    without a new state and without a diagnostic of its own; it is the
    schema's [ExactlyOneOf] validators that reject a configuration
    with neither block. *)
Theorem Create_at_most_one_set r req resp w :
  (exists evs,
      trace (create r req resp w).2 = trace w ++ evs /\
      (length evs <= 1)%nat /\
      ~ (existsb (fun e => tfe.is_SetDeleteOlder (call e)) evs = true /\
         existsb (fun e => tfe.is_SetDontDelete (call e)) evs = true)) /\
  (Object_IsNull (DeleteOlderThan (Get (Create_Plan req)).2) = true ->
   Object_IsNull (DontDelete (Get (Create_Plan req)).2) = true ->
   exists resp',
     create r req resp w = (Returned resp', w) /\
     State resp' = State resp /\
     forall d, d ∈ Diags resp' ->
       d ∈ Diags resp \/ d ∈ (Get (Create_Plan req)).1 \/
       d ∈ (dataOrDefaultOrganization (config r) (Create_Plan req) "").1) /\
  (forall config,
      Object_IsNull (DeleteOlderThan (Get config).2) = true ->
      Object_IsNull (DontDelete (Get config).2) = true ->
      HasError (Schema_Validate config) = true).
Proof.
  clear fromChoice.
  split; [|split].
  - destruct (create_trace r req resp w)
      as [H | [(f & a & o & e & H) | (f & a & o & e & H)]].
    + exists []. rewrite app_nil_r. split; [done|]. simpl.
      split; [lia | intros [? _]; discriminate].
    + eexists. split; [exact H|]. simpl. split; [lia | intros [_ ?]; discriminate].
    + eexists. split; [exact H|]. simpl. split; [lia | intros [? _]; discriminate].
  - unfold Create. destruct (Get (Create_Plan req)) as [ds plan] eqn:HG. simpl.
    intros Ho Hd.
    destruct (HasError (Append (Diags resp) ds)) eqn:He.
    { eexists. split; [reflexivity|]. split; [done|]. simpl.
      intros d. rewrite elem_of_Append. tauto. }
    destruct (String_IsNull (WorkspaceId plan)) eqn:Hw.
    + destruct (dataOrDefaultOrganization _ _ _) as [ds' org]. simpl. rewrite Ho, Hd. simpl.
      destruct (HasError (Append (Append (Diags resp) ds) ds'));
        (eexists; split; [reflexivity|]; split; [done|]); simpl;
        intros d; rewrite !elem_of_Append; tauto.
    + simpl. rewrite He, Ho, Hd. simpl.
      eexists. split; [reflexivity|]. split; [done|]. simpl.
      intros d. rewrite elem_of_Append. tauto.
  - intros cfg. unfold Get, Schema_Validate, ExactlyOneOf.
    destruct (get_string cfg "id"), (get_string cfg "organization"),
      (get_string cfg "workspace_id"),
      (get_object cfg "delete_older_than") as [? o1],
      (get_object cfg "dont_delete") as [? o2]. simpl.
    intros H1 H2. destruct o1, o2; try discriminate. reflexivity.
Qed.

(** C4. [Update] fails whatever it is given: its answer is the same for
    every request, it carries an "Update not supported" error, the
    state of the response is untouched and the world, with its trace
    of remote calls, is as before. *)
Theorem Update_unsupported r (req req' : UpdateRequest) resp w :
  exists resp',
    Update r req resp w = (Returned resp', w) /\
    Update r req' resp w = (Returned resp', w) /\
    HasError (Diags resp') = true /\
    NewErrorDiagnostic "Update not supported"
      "The update operation is not supported on this resource. This is a bug in the provider."
      ∈ Diags resp' /\
    State resp' = State resp.
Proof.
  eexists. split; [reflexivity|]. split; [reflexivity|]. simpl.
  split; [apply HasError_AddError|]. split; [apply AddError_elem_of | done].
Qed.

(** C7. [Delete] returns at once: the response comes back as it was
    given, without a new diagnostic and with the same state, and the
    world is unchanged, so no remote call was made. *)
Theorem Delete_does_nothing r (req : DeleteRequest) resp w :
  Delete r req resp w = (Returned resp, w) /\
  trace (Delete r req resp w).2 = trace w /\
  remote (Delete r req resp w).2 = remote w.
Proof. done. Qed.
Ltac trace_inv :=
  match goal with
  | H : trace ?w = trace ?w ++ ?evs |- _ => apply trace_same in H; subst evs
  | H : trace ?w ++ [?e] = trace ?w ++ ?evs |- _ => apply trace_one in H; subst evs
  | H : _ ∈ [] |- _ => inversion H
  | H : _ ∈ [_] |- _ => apply list_elem_of_singleton in H; subst
  end.

Lemma surfaced_AddError summary err resp :
  surfaced summary err resp (Returned (Diagnostics_AddError resp summary err)).
Proof.
  eexists. split; [reflexivity|]. simpl.
  split; [done|]. split; [apply AddError_elem_of | apply HasError_AddError].
Qed.

Lemma createDeleteOlderThan_failure r plan resp w evs e err :
  trace (createDeleteOlderThan r plan resp w).2 = trace w ++ evs ->
  e ∈ evs -> failed e = Some err ->
  surfaced "Unable to create data retention policy" err resp
    (createDeleteOlderThan r plan resp w).1.
Proof.
  unfold createDeleteOlderThanRetentionPolicy. unfold_calls.
  intros H Hin Hf.
  repeat first [ progress simplify_eq/= | trace_inv | case_match ];
    apply surfaced_AddError.
Qed.

Lemma createDontDelete_failure r plan resp w evs e err :
  trace (createDontDelete r plan resp w).2 = trace w ++ evs ->
  e ∈ evs -> failed e = Some err ->
  surfaced "Unable to create data retention policy" err resp
    (createDontDelete r plan resp w).1.
Proof.
  unfold createDontDeleteRetentionPolicy. unfold_calls.
  intros H Hin Hf.
  repeat first [ progress simplify_eq/= | trace_inv | case_match ];
    apply surfaced_AddError.
Qed.

Lemma create_failure r req resp w evs e err :
  trace (create r req resp w).2 = trace w ++ evs ->
  e ∈ evs -> failed e = Some err ->
  surfaced "Unable to create data retention policy" err resp
    (create r req resp w).1.
Proof.
  unfold Create. intros H Hin Hf.
  repeat first [ progress simplify_eq/= | progress unfold ret in * | trace_inv | case_match ];
    match goal with
    | H : trace (createDeleteOlderThanRetentionPolicy _ _ _ _ _ _).2 = _ |- _ =>
        destruct (createDeleteOlderThan_failure _ _ _ _ _ _ _ H Hin Hf)
          as (resp' & ? & ? & ? & ?)
    | H : trace (createDontDeleteRetentionPolicy _ _ _ _ _).2 = _ |- _ =>
        destruct (createDontDelete_failure _ _ _ _ _ _ _ H Hin Hf)
          as (resp' & ? & ? & ? & ?)
    end;
    exists resp'; auto.
Qed.

Lemma read_failure r req resp w evs e err :
  trace (read r req resp w).2 = trace w ++ evs ->
  e ∈ evs -> failed e = Some err ->
  surfaced "Failed to read data retention policy" err resp
    (read r req resp w).1.
Proof.
  unfold Read. unfold_calls. intros H Hin Hf.
  repeat first [ progress simplify_eq/= | trace_inv | case_match ];
    match goal with
    | |- surfaced _ _ ?rs (Returned (Diagnostics_AddError ?rs' _ _)) =>
        destruct (surfaced_AddError "Failed to read data retention policy" err rs')
          as (resp' & ? & ? & ? & ?)
    end;
    exists resp'; auto.
Qed.

(** C3. When a remote call made by [Create] or by [Read] returns an
    error, the callback returns, the response carries an error
    diagnostic with the message of that error, and the state of the
    response is the state it had before the callback ran. *)
Theorem remote_failure_persists_no_state r resp w evs e err :
  e ∈ evs -> failed e = Some err ->
  (forall req,
      trace (create r req resp w).2 = trace w ++ evs ->
      exists resp',
        (create r req resp w).1 = Returned resp' /\
        State resp' = State resp /\
        NewErrorDiagnostic "Unable to create data retention policy" err ∈ Diags resp' /\
        HasError (Diags resp') = true) /\
  (forall req,
      trace (read r req resp w).2 = trace w ++ evs ->
      exists resp',
        (read r req resp w).1 = Returned resp' /\
        State resp' = State resp /\
        NewErrorDiagnostic "Failed to read data retention policy" err ∈ Diags resp' /\
        HasError (Diags resp') = true).
Proof.
  intros Hin Hf. split; intros req H.
  - exact (create_failure r req resp w evs e err H Hin Hf).
  - exact (read_failure r req resp w evs e err H Hin Hf).
Qed.

Lemma Get_with_organization (o : option tfString) (data : gmap string attrValue) :
  Get (with_organization o data)
  = ((Get (delete "organization" data)).1,
     set_Organization (default StringNull o) (Get (delete "organization" data)).2).
Proof.
  assert (Hne : forall k, k <> "organization" ->
            with_organization o data !! k = delete "organization" data !! k).
  { intros k Hk. destruct o; simpl; [|done].
    by rewrite lookup_insert_ne, lookup_delete_ne. }
  unfold Get, get_string, get_object.
  rewrite (Hne "id"), (Hne "workspace_id"), (Hne "delete_older_than"),
    (Hne "dont_delete") by done.
  rewrite lookup_delete_eq.
  destruct o as [v|]; simpl.
  - rewrite lookup_insert_eq. repeat case_match; simplify_eq/=; reflexivity.
  - rewrite lookup_delete_eq. repeat case_match; simplify_eq/=; reflexivity.
Qed.

Lemma Get_WorkspaceId (data : gmap string attrValue) (ws : tfString) :
  data !! "workspace_id" = Some (AttrString ws) -> WorkspaceId (Get data).2 = ws.
Proof.
  intros H. unfold Get, get_string. rewrite H.
  repeat case_match; simplify_eq/=; reflexivity.
Qed.

Lemma createDeleteOlderThan_workspace r plan resp w :
  String_IsNull (WorkspaceId plan) = false ->
  exists evs,
    trace (createDeleteOlderThan r plan resp w).2 = trace w ++ evs /\
    Forall (to_workspace (ValueString (WorkspaceId plan))) evs.
Proof.
  intros Hw. unfold createDeleteOlderThanRetentionPolicy. unfold_calls. rewrite Hw.
  repeat step;
    first [ exists []; rewrite app_nil_r; split; [done | constructor]
          | eexists; split; [reflexivity|]; repeat constructor ].
Qed.

Lemma createDontDelete_workspace r plan resp w :
  String_IsNull (WorkspaceId plan) = false ->
  exists evs,
    trace (createDontDelete r plan resp w).2 = trace w ++ evs /\
    Forall (to_workspace (ValueString (WorkspaceId plan))) evs.
Proof.
  intros Hw. unfold createDontDeleteRetentionPolicy. unfold_calls. rewrite Hw.
  repeat step;
    first [ exists []; rewrite app_nil_r; split; [done | constructor]
          | eexists; split; [reflexivity|]; repeat constructor ].
Qed.

(** With a workspace, the organization of the model is not looked at. *)
Lemma createDeleteOlderThan_organization r plan resp resp' w (v v' : tfString) :
  String_IsNull (WorkspaceId plan) = false ->
  (createDeleteOlderThan r (set_Organization v plan) resp w).2
  = (createDeleteOlderThan r (set_Organization v' plan) resp' w).2.
Proof.
  intros Hw. unfold createDeleteOlderThanRetentionPolicy. unfold_calls. simpl. rewrite Hw.
  destruct (As (DeleteOlderThan plan) _) as [ds [d|]]; destruct (HasError ds); try done.
  destruct (ValueBigFloat (Days d)); [|done].
  destruct (tfe.SetDataRetentionPolicyDeleteOlder _ _ _ _ _) as [[p|err] s]; simpl; [|done].
  do 2 destruct (fromDeleteOlder _ _). by repeat case_match.
Qed.

Lemma createDontDelete_organization r plan resp resp' w (v v' : tfString) :
  String_IsNull (WorkspaceId plan) = false ->
  (createDontDelete r (set_Organization v plan) resp w).2
  = (createDontDelete r (set_Organization v' plan) resp' w).2.
Proof.
  intros Hw. unfold createDontDeleteRetentionPolicy. unfold_calls. simpl. rewrite Hw.
  destruct (As (DeleteOlderThan plan) _) as [ds [d|]]; destruct (HasError ds); try done;
    by destruct (tfe.SetDataRetentionPolicyDontDelete _ _ _ _ _) as [[p|err] s].
Qed.

Lemma create_workspace r req resp w (ws : tfString) :
  WorkspaceId (Get (Create_Plan req)).2 = ws ->
  String_IsNull ws = false ->
  exists evs,
    trace (create r req resp w).2 = trace w ++ evs /\
    Forall (to_workspace (ValueString ws)) evs.
Proof.
  unfold Create. destruct (Get (Create_Plan req)) as [ds m]. simpl.
  intros <- Hw. rewrite Hw.
  destruct (HasError (Append (Diags resp) ds)) eqn:He; simpl.
  { exists []. rewrite app_nil_r. split; [done | constructor]. }
  rewrite He.
  destruct (negb (Object_IsNull (DeleteOlderThan m))).
  { by apply createDeleteOlderThan_workspace. }
  destruct (negb (Object_IsNull (DontDelete m))).
  { by apply createDontDelete_workspace. }
  exists []. rewrite app_nil_r. split; [done | constructor].
Qed.

Lemma read_workspace r req resp w (ws : tfString) :
  WorkspaceId (Get (Read_State req)).2 = ws ->
  String_IsNull ws = false ->
  exists evs,
    trace (read r req resp w).2 = trace w ++ evs /\
    Forall (to_workspace (ValueString ws)) evs.
Proof.
  unfold Read. unfold_calls. destruct (Get (Read_State req)) as [ds m]. simpl.
  intros <- Hw. rewrite Hw.
  repeat step;
    first [ exists []; rewrite app_nil_r; split; [done | constructor]
          | eexists; split; [reflexivity|]; repeat constructor ].
Qed.

Lemma create_organization_unused r cfg resp w (data : gmap string attrValue)
    (ws : tfString) (o o' : option tfString) :
  data !! "workspace_id" = Some (AttrString ws) ->
  String_IsNull ws = false ->
  (create r {| Create_Config := cfg; Create_Plan := with_organization o data |} resp w).2
  = (create r {| Create_Config := cfg; Create_Plan := with_organization o' data |} resp w).2.
Proof.
  intros Hd Hw. unfold Create. simpl. rewrite !Get_with_organization.
  assert (Hm : WorkspaceId (Get (delete "organization" data)).2 = ws).
  { apply Get_WorkspaceId. by rewrite lookup_delete_ne. }
  destruct (Get (delete "organization" data)) as [ds m]. simpl in *. subst ws.
  rewrite Hw. destruct (HasError (Append (Diags resp) ds)) eqn:He; simpl; [done|].
  rewrite He.
  destruct (negb (Object_IsNull (DeleteOlderThan m))).
  { by apply createDeleteOlderThan_organization. }
  destruct (negb (Object_IsNull (DontDelete m))); [|done].
  by apply createDontDelete_organization.
Qed.

Lemma read_organization_unused r resp w (data : gmap string attrValue)
    (ws : tfString) (o o' : option tfString) :
  data !! "workspace_id" = Some (AttrString ws) ->
  String_IsNull ws = false ->
  (read r {| Read_State := with_organization o data |} resp w).2
  = (read r {| Read_State := with_organization o' data |} resp w).2.
Proof.
  intros Hd Hw. unfold Read. unfold_calls. simpl. rewrite !Get_with_organization.
  assert (Hm : WorkspaceId (Get (delete "organization" data)).2 = ws).
  { apply Get_WorkspaceId. by rewrite lookup_delete_ne. }
  destruct (Get (delete "organization" data)) as [ds m]. simpl in *. subst ws.
  rewrite Hw. destruct (HasError (Append (Diags resp) ds)) eqn:He; simpl; [done|].
  destruct (tfe.ReadDataRetentionPolicyChoice _ _ _ _) as [[p|err] s]; simpl; [|done].
  do 2 destruct (fromChoice _ _). by repeat case_match.
Qed.

Lemma read_call r req resp w :
  HasError (Append (Diags resp) (Get (Read_State req)).1) = false ->
  exists err,
    trace (read r req resp w).2
    = trace w ++ [{| call := tfe.ReadChoice (target (Get (Read_State req)).2).1
                               (target (Get (Read_State req)).2).2;
                     failed := err |}].
Proof.
  unfold Read, target. unfold_calls.
  destruct (Get (Read_State req)) as [ds m]. simpl. intros ->.
  destruct (String_IsNull (WorkspaceId m)); simpl;
    destruct (tfe.ReadDataRetentionPolicyChoice _ _ _ _) as [[p|err] s]; simpl;
    repeat case_match; simpl; eauto.
Qed.

Lemma createDeleteOlderThan_call r plan resp w (f : BigFloat.t) :
  DeleteOlderThan plan = ObjectValue {[ "days" := NumberValue f ]} ->
  exists err,
    trace (createDeleteOlderThan r plan resp w).2
    = trace w ++ [{| call := tfe.SetDeleteOlder (target plan).1 (target plan).2
                               {| tfe.DeleteOlderThanNDays :=
                                    int intSize (BigFloat.Int64 f) |};
                     failed := err |}].
Proof.
  intros Hplan.
  unfold createDeleteOlderThanRetentionPolicy, target, As. unfold_calls.
  rewrite Hplan, lookup_singleton_eq, map_size_singleton. simpl.
  destruct (String_IsNull (WorkspaceId plan)); simpl;
    destruct (tfe.SetDataRetentionPolicyDeleteOlder _ _ _ _ _) as [[p|e] s]; simpl;
    repeat case_match; simpl; eauto.
Qed.

Lemma createDontDelete_call r plan resp w :
  DeleteOlderThan plan = ObjectNull ->
  exists err,
    trace (createDontDelete r plan resp w).2
    = trace w ++ [{| call := tfe.SetDontDelete (target plan).1 (target plan).2
                               tfe.NoDontDeleteSetOptions;
                     failed := err |}].
Proof.
  intros Hplan.
  unfold createDontDeleteRetentionPolicy, target, As. unfold_calls.
  rewrite Hplan. simpl.
  destruct (String_IsNull (WorkspaceId plan)); simpl;
    destruct (tfe.SetDataRetentionPolicyDontDelete _ _ _ _ _) as [[p|e] s]; simpl;
    eauto.
Qed.

(** With a workspace and nothing failed, [Create] is the branch of the
    decoded plan. *)
Lemma create_with_workspace r req resp w :
  String_IsNull (WorkspaceId (Get (Create_Plan req)).2) = false ->
  HasError (Append (Diags resp) (Get (Create_Plan req)).1) = false ->
  create r req resp w
  = (if negb (Object_IsNull (DeleteOlderThan (Get (Create_Plan req)).2)) then
       createDeleteOlderThan r (Get (Create_Plan req)).2
         (Diagnostics_Append resp (Get (Create_Plan req)).1) w
     else if negb (Object_IsNull (DontDelete (Get (Create_Plan req)).2)) then
       createDontDelete r (Get (Create_Plan req)).2
         (Diagnostics_Append resp (Get (Create_Plan req)).1) w
     else (Returned (Diagnostics_Append resp (Get (Create_Plan req)).1), w)).
Proof.
  intros Hw He. unfold Create. destruct (Get (Create_Plan req)) as [ds m].
  simpl in *. rewrite He, Hw. simpl. rewrite He. by repeat case_match.
Qed.

(** C2. When [workspace_id] is not null in the plan (for [Create]) or in
    the state (for [Read]), every remote call the callback makes goes to
    the workspace family of the API, at the workspace id.  The
    organization attribute plays no part: whatever it is replaced with,
    or if it is removed, the callback leaves the same trace of calls and
    the same remote state.  And the call is made: when nothing failed
    before, [Read] makes the one call "read policy choice" of the
    workspace family at the workspace id, and [Create] the one "set"
    call of the plan's variant there. *)
Theorem workspace_addressing r resp w (data : gmap string attrValue) (ws : tfString) :
  data !! "workspace_id" = Some (AttrString ws) ->
  String_IsNull ws = false ->
  (forall req, Create_Plan req = data ->
     exists evs,
       trace (create r req resp w).2 = trace w ++ evs /\
       Forall (to_workspace (ValueString ws)) evs) /\
  (forall req, Read_State req = data ->
     exists evs,
       trace (read r req resp w).2 = trace w ++ evs /\
       Forall (to_workspace (ValueString ws)) evs) /\
  (forall (o o' : option tfString) cfg,
     (create r {| Create_Config := cfg; Create_Plan := with_organization o data |} resp w).2
     = (create r {| Create_Config := cfg; Create_Plan := with_organization o' data |} resp w).2) /\
  (forall (o o' : option tfString),
     (read r {| Read_State := with_organization o data |} resp w).2
     = (read r {| Read_State := with_organization o' data |} resp w).2) /\
  (HasError (Append (Diags resp) (Get data).1) = false ->
   (forall req, Read_State req = data ->
      exists err,
        trace (read r req resp w).2
        = trace w ++ [{| call := tfe.ReadChoice tfe.Workspaces (ValueString ws);
                         failed := err |}]) /\
   (forall req f, Create_Plan req = data ->
      DeleteOlderThan (Get data).2 = ObjectValue {[ "days" := NumberValue f ]} ->
      exists err,
        trace (create r req resp w).2
        = trace w ++ [{| call := tfe.SetDeleteOlder tfe.Workspaces (ValueString ws)
                                   {| tfe.DeleteOlderThanNDays :=
                                        int intSize (BigFloat.Int64 f) |};
                         failed := err |}]) /\
   (forall req, Create_Plan req = data ->
      DeleteOlderThan (Get data).2 = ObjectNull ->
      Object_IsNull (DontDelete (Get data).2) = false ->
      exists err,
        trace (create r req resp w).2
        = trace w ++ [{| call := tfe.SetDontDelete tfe.Workspaces (ValueString ws)
                                   tfe.NoDontDeleteSetOptions;
                         failed := err |}])).
Proof.
  intros Hd Hw.
  pose proof (Get_WorkspaceId data ws Hd) as Hws.
  assert (Htarget : target (Get data).2 = (tfe.Workspaces, ValueString ws)).
  { unfold target. by rewrite Hws, Hw. }
  split; [|split; [|split; [|split]]].
  - intros req <-. apply create_workspace; [by apply Get_WorkspaceId | done].
  - intros req <-. apply read_workspace; [by apply Get_WorkspaceId | done].
  - intros o o' cfg. by eapply create_organization_unused.
  - intros o o'. by eapply read_organization_unused.
  - intros He. split; [|split].
    + intros req <-. destruct (read_call r req resp w He) as [err H].
      exists err. by rewrite H, Htarget.
    + intros req f <- Ho.
      rewrite create_with_workspace by (by rewrite ?Hws).
      rewrite Ho. simpl.
      destruct (createDeleteOlderThan_call r (Get (Create_Plan req)).2
                  (Diagnostics_Append resp (Get (Create_Plan req)).1) w f Ho)
        as [err H].
      exists err. by rewrite H, Htarget.
    + intros req <- Ho Hdont.
      rewrite create_with_workspace by (by rewrite ?Hws).
      rewrite Ho, Hdont. simpl.
      destruct (createDontDelete_call r (Get (Create_Plan req)).2
                  (Diagnostics_Append resp (Get (Create_Plan req)).1) w Ho)
        as [err H].
      exists err. by rewrite H, Htarget.
Qed.

(** C9. In [createDontDeleteRetentionPolicy] the decoded
    [delete_older_than] object has no influence on the remote call: for
    two plans that differ only in that block, both decoding without an
    error, the branch makes the one call "set don't-delete" at the
    plan's target with the empty options, and leaves the same trace and
    the same remote state. *)
Theorem createDontDelete_ignores_decoded r plan resp w (older older' : tfObject) :
  HasError (As older (Some {| Days := NumberNull |})).1 = false ->
  HasError (As older' (Some {| Days := NumberNull |})).1 = false ->
  (exists err,
      trace (createDontDelete r (set_DeleteOlderThan older plan) resp w).2
      = trace w ++ [{| call := tfe.SetDontDelete (target plan).1 (target plan).2
                                 tfe.NoDontDeleteSetOptions;
                       failed := err |}]) /\
  (createDontDelete r (set_DeleteOlderThan older plan) resp w).2
  = (createDontDelete r (set_DeleteOlderThan older' plan) resp w).2.
Proof.
  intros H H'. unfold createDontDeleteRetentionPolicy, target. unfold_calls. simpl.
  destruct (As older _) as [ds d], (As older' _) as [ds' d']. simpl in *.
  rewrite H, H'.
  destruct (String_IsNull (WorkspaceId plan)); simpl;
    destruct (tfe.SetDataRetentionPolicyDontDelete _ _ _ _ _) as [[p|e] s]; simpl;
    eauto.
Qed.

(** C6 (as amended). On the delete-older-than branch the remote call receives
    [int(Int64(days))] for every decoded number of days, finite or not,
    integral or not: the conversion rejects nothing.  For a finite value
    whose integer part fits an [int], that is the value rounded toward
    zero; [30.0] becomes 30 and [30.7] becomes 30. *)
Theorem days_converted_toward_zero r plan resp w (f : BigFloat.t) :
  intSize = 32 \/ intSize = 64 ->
  DeleteOlderThan plan = ObjectValue {[ "days" := NumberValue f ]} ->
  (exists err,
      trace (createDeleteOlderThan r plan resp w).2
      = trace w ++ [{| call := tfe.SetDeleteOlder (target plan).1 (target plan).2
                                 {| tfe.DeleteOlderThanNDays :=
                                      Go.wrap intSize (BigFloat.Int64 f) |};
                       failed := err |}]) /\
  (forall m e,
      f = BigFloat.Finite m e ->
      - 2 ^ (intSize - 1) <= BigFloat.trunc m e < 2 ^ (intSize - 1) ->
      Go.wrap intSize (BigFloat.Int64 f) = BigFloat.trunc m e /\
      rounds_toward_zero (BigFloat.numerator m e) (BigFloat.denominator m e)
        (Go.wrap intSize (BigFloat.Int64 f))) /\
  Go.wrap intSize (BigFloat.Int64 BigFloat.thirty) = 30 /\
  Go.wrap intSize (BigFloat.Int64 BigFloat.thirty_point_seven) = 30.
Proof.
  intros Hsize Hplan. split; [|split].
  - unfold createDeleteOlderThanRetentionPolicy, target, As, int. unfold_calls.
    rewrite Hplan, lookup_singleton_eq, map_size_singleton. simpl.
    destruct (String_IsNull (WorkspaceId plan)); simpl;
      destruct (tfe.SetDataRetentionPolicyDeleteOlder _ _ _ _ _) as [[p|e] s]; simpl;
      repeat case_match; simpl; eauto.
  - intros m e -> Hr.
    assert (Heq : Go.wrap intSize (BigFloat.Int64 (BigFloat.Finite m e))
                  = BigFloat.trunc m e).
    { rewrite Int64_in_range.
      - apply wrap_in_range; [lia | done].
      - unfold Go.MinInt64, Go.MaxInt64.
        destruct Hsize as [-> | ->]; simpl in Hr; lia. }
    split; [done|]. rewrite Heq. apply trunc_rounds_toward_zero.
  - destruct Hsize as [-> | ->]; split; reflexivity.
Qed.

Lemma State_SetAttribute_string resp (name v : string) :
  Schema !! name = Some KindString ->
  State_SetAttribute resp name v
  = {| State := <[name := AttrString (StringValue v)]> (State resp);
       Diags := Diags resp |}.
Proof.
  intros H. unfold State_SetAttribute, SetAttribute. simpl.
  by rewrite bool_decide_eq_true_2.
Qed.

Lemma ImportState_accepted r resp w (org id : string) :
  ~ contains_slash org ->
  ImportState r {| Import_ID := org +:+ "/" +:+ id |} resp w
  = (Returned (imported resp org id), w).
Proof.
  intros H. unfold ImportState. simpl. rewrite SplitN_slash by done.
  by rewrite !State_SetAttribute_string.
Qed.

Lemma ImportState_refused r resp w (ID : string) :
  ~ contains_slash ID ->
  ImportState r {| Import_ID := ID |} resp w
  = (Returned {| State := State resp;
                 Diags := Append (Diags resp) [import_format_error ID] |}, w).
Proof.
  intros H. unfold ImportState. simpl. by rewrite SplitN_no_slash.
Qed.

(** C5. An import identifier with a ['/'] is cut at its first ['/']:
    what is before goes to [organization], all that follows, further
    ['/'] included, goes to [id].  An identifier without ['/'] is
    refused with an error that shows the expected two-part form, and
    the state is left alone.  So ["acme/pol-abc123"] gives ["acme"] and
    ["pol-abc123"], ["no-slash-here"] is refused, ["acme/pol/extra"]
    gives ["acme"] and ["pol/extra"]. *)
Theorem ImportState_splits_at_first_slash r resp w (ID : string) :
  (contains_slash ID ->
   exists org id,
     ID = org +:+ "/" +:+ id /\ ~ contains_slash org /\
     ImportState r {| Import_ID := ID |} resp w = (Returned (imported resp org id), w)) /\
  (~ contains_slash ID ->
   exists resp',
     ImportState r {| Import_ID := ID |} resp w = (Returned resp', w) /\
     State resp' = State resp /\
     HasError (Diags resp') = true /\
     import_format_error ID ∈ Diags resp') /\
  ImportState r {| Import_ID := "acme/pol-abc123" |} resp w
  = (Returned (imported resp "acme" "pol-abc123"), w) /\
  (exists resp',
      ImportState r {| Import_ID := "no-slash-here" |} resp w = (Returned resp', w) /\
      HasError (Diags resp') = true) /\
  ImportState r {| Import_ID := "acme/pol/extra" |} resp w
  = (Returned (imported resp "acme" "pol/extra"), w).
Proof.
  assert (Hacme : ~ contains_slash "acme").
  { rewrite !contains_slash_cons. intros [?|[?|[?|[?|?]]]]; try discriminate.
    by eapply contains_slash_empty. }
  split; [|split; [|split; [|split]]].
  - intros H. destruct (first_slash ID H) as (org & id & -> & Hn).
    exists org, id. split; [done|]. split; [done|]. by apply ImportState_accepted.
  - intros H. eexists. split; [by apply ImportState_refused|]. simpl.
    split; [done|]. split; [apply HasError_AddError | apply AddError_elem_of].
  - by apply (ImportState_accepted r resp w "acme" "pol-abc123").
  - eexists. split; [reflexivity|]. apply HasError_AddError.
  - by apply (ImportState_accepted r resp w "acme" "pol/extra").
Qed.

Lemma contains_slash_dec (s : string) : {contains_slash s} + {~ contains_slash s}.
Proof.
  induction s as [|c s IH].
  - right. apply contains_slash_empty.
  - destruct (Ascii.eqb_spec "/"%char c) as [<-|Hc].
    + left. apply contains_slash_cons. by left.
    + destruct IH as [H|H].
      * left. apply contains_slash_cons. by right.
      * right. rewrite contains_slash_cons. intros [->|?]; tauto.
Qed.

Lemma SplitN_two_parts (ID : string) :
  length (strings.SplitN ID "/" 2) = 2%nat ->
  exists org id, ID = org +:+ "/" +:+ id /\ ~ contains_slash org.
Proof.
  intros H. destruct (contains_slash_dec ID) as [Hc|Hc].
  - by apply first_slash.
  - rewrite SplitN_no_slash in H by done. discriminate H.
Qed.

Lemma Get_imported (org id : string) :
  Get (<["id" := AttrString (StringValue id)]>
         (<["organization" := AttrString (StringValue org)]> ∅))
  = ([], {| ID := StringValue id; Organization := StringValue org;
            WorkspaceId := StringNull; DeleteOlderThan := ObjectNull;
            DontDelete := ObjectNull |}).
Proof.
  unfold Get, get_string, get_object.
  rewrite lookup_insert_eq.
  rewrite (lookup_insert_ne _ "id" "organization") by done.
  rewrite lookup_insert_eq.
  rewrite (lookup_insert_ne _ "id" "workspace_id"),
    (lookup_insert_ne _ "organization" "workspace_id"),
    (lookup_insert_ne _ "id" "delete_older_than"),
    (lookup_insert_ne _ "organization" "delete_older_than"),
    (lookup_insert_ne _ "id" "dont_delete"),
    (lookup_insert_ne _ "organization" "dont_delete") by done.
  by rewrite !lookup_empty.
Qed.

(** C10. An accepted import writes the attributes [organization] and
    [id] and no other: every other attribute of the state, and the
    diagnostics, are as before.  Starting from the empty state the
    imported record has no workspace and neither block, and a [Read] of
    it calls the organization family at the first segment. *)
Theorem ImportState_writes_organization_and_id r resp w (ID : string) :
  length (strings.SplitN ID "/" 2) = 2%nat ->
  exists org id resp',
    ID = org +:+ "/" +:+ id /\
    ImportState r {| Import_ID := ID |} resp w = (Returned resp', w) /\
    State resp' !! "organization" = Some (AttrString (StringValue org)) /\
    State resp' !! "id" = Some (AttrString (StringValue id)) /\
    (forall k, k <> "organization" -> k <> "id" -> State resp' !! k = State resp !! k) /\
    Diags resp' = Diags resp /\
    (State resp = ∅ ->
     Get (State resp')
     = ([], {| ID := StringValue id; Organization := StringValue org;
               WorkspaceId := StringNull; DeleteOlderThan := ObjectNull;
               DontDelete := ObjectNull |}) /\
     forall resp0 w0,
       HasError (Diags resp0) = false ->
       exists err,
         trace (read r {| Read_State := State resp' |} resp0 w0).2
         = trace w0 ++ [{| call := tfe.ReadChoice tfe.Organizations org;
                           failed := err |}]).
Proof.
  intros H. destruct (SplitN_two_parts ID H) as (org & id & -> & Hn).
  exists org, id, (imported resp org id).
  split; [done|]. split; [by apply ImportState_accepted|]. simpl.
  split; [by rewrite lookup_insert_ne, lookup_insert_eq|].
  split; [by rewrite lookup_insert_eq|].
  split; [intros k H1 H2; by rewrite !lookup_insert_ne|].
  split; [done|].
  intros ->. split; [apply Get_imported|].
  intros resp0 w0 He. unfold Read. cbn [Read_State]. rewrite Get_imported.
  unfold_calls. simpl.
  rewrite He. simpl.
  destruct (tfe.ReadDataRetentionPolicyChoice _ _ _ _) as [[p|e] s]; simpl;
    repeat case_match; simpl; eauto.
Qed.

Lemma createDeleteOlderThan_organization_family r plan resp w :
  String_IsNull (WorkspaceId plan) = true ->
  exists evs,
    trace (createDeleteOlderThan r plan resp w).2 = trace w ++ evs /\
    Forall (to_organization (ValueString (Organization plan))) evs.
Proof.
  intros Hw. unfold createDeleteOlderThanRetentionPolicy. unfold_calls. rewrite Hw.
  repeat step;
    first [ exists []; rewrite app_nil_r; split; [done | constructor]
          | eexists; split; [reflexivity|]; repeat constructor ].
Qed.

Lemma createDontDelete_organization_family r plan resp w :
  String_IsNull (WorkspaceId plan) = true ->
  exists evs,
    trace (createDontDelete r plan resp w).2 = trace w ++ evs /\
    Forall (to_organization (ValueString (Organization plan))) evs.
Proof.
  intros Hw. unfold createDontDeleteRetentionPolicy. unfold_calls. rewrite Hw.
  repeat step;
    first [ exists []; rewrite app_nil_r; split; [done | constructor]
          | eexists; split; [reflexivity|]; repeat constructor ].
Qed.

Lemma dataOrDefaultOrganization_resolved (c : ConfiguredClient.t R)
    (data : gmap string attrValue) (target : string) :
  ConfiguredClient_dataOrDefaultOrganization c data target
  = match resolved_organization c data with
    | Some org => ([], org)
    | None => ([configuration_error], target)
    end.
Proof.
  unfold ConfiguredClient_dataOrDefaultOrganization, resolved_organization.
  by repeat case_match.
Qed.

(** C8. With the organization lookup of the spec: when [workspace_id]
    is null and neither a declared nor a default organization is
    found, [Create] returns with an error, the configuration error
    unless an earlier step had failed already, and the world and the
    state are untouched, so no remote call was made.  When an
    organization is found, [Create] continues as the branch of the
    plan's variant, run on the plan with that organization written into
    it, and every call it makes goes to the organization family at that
    organization. *)
Theorem Create_resolves_organization r req resp w :
  String_IsNull (WorkspaceId (Get (Create_Plan req)).2) = true ->
  (resolved_organization (config r) (Create_Plan req) = None ->
   exists resp',
     Create intSize ConfiguredClient_dataOrDefaultOrganization fromDeleteOlder
       fromDontDelete r req resp w = (Returned resp', w) /\
     HasError (Diags resp') = true /\
     State resp' = State resp /\
     (HasError (Append (Diags resp) (Get (Create_Plan req)).1) = false ->
      configuration_error ∈ Diags resp')) /\
  (forall org,
      resolved_organization (config r) (Create_Plan req) = Some org ->
      HasError (Append (Diags resp) (Get (Create_Plan req)).1) = false ->
      let plan := set_Organization (StringValue org) (Get (Create_Plan req)).2 in
      let resp1 := Diagnostics_Append resp (Get (Create_Plan req)).1 in
      Create intSize ConfiguredClient_dataOrDefaultOrganization fromDeleteOlder
        fromDontDelete r req resp w
      = (if negb (Object_IsNull (DeleteOlderThan plan)) then
           createDeleteOlderThan r plan resp1 w
         else if negb (Object_IsNull (DontDelete plan)) then
           createDontDelete r plan resp1 w
         else (Returned resp1, w)) /\
      exists evs,
        trace (Create intSize ConfiguredClient_dataOrDefaultOrganization fromDeleteOlder
                 fromDontDelete r req resp w).2 = trace w ++ evs /\
        Forall (to_organization org) evs).
Proof.
  intros Hw. unfold Create. rewrite dataOrDefaultOrganization_resolved.
  destruct (Get (Create_Plan req)) as [ds m]. simpl in *. rewrite Hw.
  split.
  - intros ->. destruct (HasError (Append (Diags resp) ds)) eqn:He; simpl.
    + eexists. split; [reflexivity|]. simpl. by rewrite He.
    + assert (Hc : HasError (Append (Append (Diags resp) ds) [configuration_error]) = true).
      { rewrite HasError_Append. simpl. by rewrite orb_true_r. }
      simpl in Hc. rewrite Hc.
      eexists. split; [reflexivity|]. simpl. rewrite Hc.
      split; [done|]. split; [done|]. intros _.
      apply (elem_of_Append _ [configuration_error]). right.
      by apply list_elem_of_singleton.
  - intros org -> He. rewrite He. simpl. rewrite He.
    assert (Hresp : Diagnostics_Append (Diagnostics_Append resp ds) []
                    = Diagnostics_Append resp ds) by done.
    rewrite Hresp. split; [by repeat case_match|].
    destruct (negb (Object_IsNull (DeleteOlderThan m))).
    { by apply (createDeleteOlderThan_organization_family r
                  (set_Organization (StringValue org) m)). }
    destruct (negb (Object_IsNull (DontDelete m))).
    { by apply (createDontDelete_organization_family r
                  (set_Organization (StringValue org) m)). }
    exists []. rewrite app_nil_r. split; [done | constructor].
Qed.

(** ** Further properties of the callbacks *)

Lemma trace_grew (l : list Event) (e : Event) : l ++ [e] <> l.
Proof.
  intros H. apply (f_equal length) in H. rewrite length_app in H. simpl in H. lia.
Qed.

Ltac trace_absurd :=
  match goal with
  | H : trace ?w ++ [?e] = trace ?w |- _ => destruct (trace_grew _ _ H)
  end.

(** X1. An error that is there before the dispatch stops [Create] and
    [Read] at once: an error already in the response, a plan or state
    that does not decode, or, for [Create] without a workspace, a failed
    organization lookup.  The callback returns with an error, the state
    of the response and the world are as before. *)
Theorem earlier_error_stops_callback r resp w :
  (forall req,
      HasError (Diags resp) = true \/
      HasError (Get (Create_Plan req)).1 = true \/
      (String_IsNull (WorkspaceId (Get (Create_Plan req)).2) = true /\
       HasError (dataOrDefaultOrganization (config r) (Create_Plan req) "").1 = true) ->
      exists resp',
        create r req resp w = (Returned resp', w) /\
        State resp' = State resp /\
        HasError (Diags resp') = true) /\
  (forall req,
      HasError (Diags resp) = true \/ HasError (Get (Read_State req)).1 = true ->
      exists resp',
        read r req resp w = (Returned resp', w) /\
        State resp' = State resp /\
        HasError (Diags resp') = true).
Proof.
  split; intros req H.
  - unfold Create. destruct (Get (Create_Plan req)) as [ds m]. simpl in *.
    destruct (HasError (Append (Diags resp) ds)) eqn:He.
    { eexists. split; [reflexivity|]. by simpl. }
    rewrite HasError_Append in He. apply orb_false_iff in He as [He1 He2].
    destruct H as [H | [H | [Hw H]]]; [congruence | congruence |].
    rewrite Hw. destruct (dataOrDefaultOrganization _ _ _) as [ds' org]. simpl in *.
    rewrite !HasError_Append, H, orb_true_r.
    eexists. split; [reflexivity|]. simpl.
    by rewrite !HasError_Append, H, orb_true_r.
  - unfold Read. destruct (Get (Read_State req)) as [ds m]. simpl in *.
    assert (He : HasError (Append (Diags resp) ds) = true).
    { rewrite HasError_Append. destruct H as [-> | ->]; [done | apply orb_true_r]. }
    rewrite He. eexists. split; [reflexivity|]. by simpl.
Qed.

(** X2. [Create] and [Read] write the state only after a remote call:
    a run that adds nothing to the trace returns the state it was
    given. *)
Theorem state_written_only_after_call r resp w :
  (forall req resp',
      trace (create r req resp w).2 = trace w ->
      (create r req resp w).1 = Returned resp' ->
      State resp' = State resp) /\
  (forall req resp',
      trace (read r req resp w).2 = trace w ->
      (read r req resp w).1 = Returned resp' ->
      State resp' = State resp).
Proof.
  split; intros req resp'.
  - unfold Create, createDeleteOlderThanRetentionPolicy,
      createDontDeleteRetentionPolicy.
    unfold_calls. intros Ht Hr.
    repeat first [ progress simplify_eq/= | trace_absurd | case_match ]; done.
  - unfold Read. unfold_calls. intros Ht Hr.
    repeat first [ progress simplify_eq/= | trace_absurd | case_match ]; done.
Qed.

(** X3. The variant is chosen by [delete_older_than] alone: every call
    of [Create] is a "set delete-older-than" when that block is not
    null, whatever [dont_delete] is, and none is when it is null. *)
Theorem Create_branch_by_delete_older_than r req resp w evs :
  trace (create r req resp w).2 = trace w ++ evs ->
  Forall (fun e =>
            tfe.is_SetDeleteOlder (call e)
            = negb (Object_IsNull (DeleteOlderThan (Get (Create_Plan req)).2)) /\
            tfe.is_SetDontDelete (call e)
            = Object_IsNull (DeleteOlderThan (Get (Create_Plan req)).2))
         evs.
Proof.
  unfold Create, createDeleteOlderThanRetentionPolicy,
    createDontDeleteRetentionPolicy.
  unfold_calls. destruct (Get (Create_Plan req)) as [ds m]. simpl.
  intros Ht.
  repeat first [ progress simplify_eq/= | trace_inv | case_match ];
    repeat constructor;
    match goal with
    | H : negb (Object_IsNull ?o) = _ |- _ => destruct o; simpl in *; congruence
    end.
Qed.

(** X4. [Read] makes at most one remote call and only ever reads;
    [Create] never reads. *)
Theorem Read_only_reads r resp w :
  (forall req,
      exists evs,
        trace (read r req resp w).2 = trace w ++ evs /\
        (length evs <= 1)%nat /\
        Forall (fun e => is_ReadChoice (call e) = true) evs) /\
  (forall req,
      exists evs,
        trace (create r req resp w).2 = trace w ++ evs /\
        Forall (fun e => is_ReadChoice (call e) = false) evs).
Proof.
  split; intros req.
  - unfold Read. unfold_calls.
    repeat step;
      first [ exists []; rewrite app_nil_r; split; [done|]; split; [simpl; lia | constructor]
            | eexists; split; [reflexivity|]; split; [simpl; lia | repeat constructor] ].
  - destruct (create_trace r req resp w)
      as [H | [(f & a & o & e & H) | (f & a & o & e & H)]].
    + exists []. rewrite app_nil_r. split; [done | constructor].
    + eexists. split; [exact H | repeat constructor].
    + eexists. split; [exact H | repeat constructor].
Qed.

(** What [State.Set] stores decodes to the model it was given. *)
Lemma Get_Set_ (m : modelTFEDataRetentionPolicy) : Get (Set_ m).2 = ([], m).
Proof.
  unfold Get, Set_, get_string, get_object. cbn [snd].
  rewrite !lookup_insert, !lookup_singleton. simpl. by destruct m.
Qed.

Lemma createDeleteOlderThan_success r plan resp w e :
  trace (createDeleteOlderThan r plan resp w).2 = trace w ++ [e] ->
  failed e = None ->
  call_target (call e) = target plan /\
  exists p,
    (createDeleteOlderThan r plan resp w).1
    = Returned (if HasError (fromDeleteOlder plan p).2
                then Diagnostics_Append resp (fromDeleteOlder plan p).2
                else State_Set resp (fromDeleteOlder plan p).1).
Proof.
  unfold createDeleteOlderThanRetentionPolicy, target, call_target. unfold_calls.
  intros Ht Hf.
  destruct (As (DeleteOlderThan plan) _) as [ds [d|]]; destruct (HasError ds);
    simpl in *; try trace_absurd; try (symmetry in Ht; trace_absurd).
  destruct (ValueBigFloat (Days d)); simpl in *; [|symmetry in Ht; trace_absurd].
  destruct (String_IsNull (WorkspaceId plan));
    destruct (tfe.SetDataRetentionPolicyDeleteOlder _ _ _ _ _) as [[p|err] s];
    simpl in *;
    try (destruct (fromDeleteOlder plan p) as [res dg] eqn:Hfrom;
         destruct (HasError dg) eqn:Hdg; simpl in * );
    apply app_inv_head in Ht; simplify_eq/=;
    (split; [done|]); exists p; rewrite Hfrom; simpl; by rewrite Hdg.
Qed.

Lemma createDontDelete_success r plan resp w e :
  trace (createDontDelete r plan resp w).2 = trace w ++ [e] ->
  failed e = None ->
  call_target (call e) = target plan /\
  exists p,
    (createDontDelete r plan resp w).1
    = Returned (State_Set resp (fromDontDelete plan p)).
Proof.
  unfold createDontDeleteRetentionPolicy, target, call_target. unfold_calls.
  intros Ht Hf.
  destruct (As (DeleteOlderThan plan) _) as [ds d]; destruct (HasError ds);
    simpl in *; try (symmetry in Ht; trace_absurd).
  destruct (String_IsNull (WorkspaceId plan));
    destruct (tfe.SetDataRetentionPolicyDontDelete _ _ _ _ _) as [[p|err] s];
    simpl in *; apply app_inv_head in Ht; simplify_eq/=;
    (split; [done|]); by exists p.
Qed.

Lemma create_success r req resp w e :
  trace (create r req resp w).2 = trace w ++ [e] ->
  failed e = None ->
  exists plan resp1,
    HasError (Diags resp1) = false /\
    State resp1 = State resp /\
    call_target (call e) = target plan /\
    ((exists p,
         (create r req resp w).1
         = Returned (if HasError (fromDeleteOlder plan p).2
                     then Diagnostics_Append resp1 (fromDeleteOlder plan p).2
                     else State_Set resp1 (fromDeleteOlder plan p).1)) \/
     (exists p,
         (create r req resp w).1
         = Returned (State_Set resp1 (fromDontDelete plan p)))).
Proof.
  unfold Create. destruct (Get (Create_Plan req)) as [ds m]. simpl.
  destruct (HasError (Append (Diags resp) ds)) eqn:He; simpl.
  { intros Ht. symmetry in Ht. trace_absurd. }
  set (pr := if String_IsNull (WorkspaceId m)
             then let '(diags, organization) :=
                    dataOrDefaultOrganization (config r) (Create_Plan req) "" in
                  (Diagnostics_Append (Diagnostics_Append resp ds) diags,
                   set_Organization (StringValue organization) m)
             else (Diagnostics_Append resp ds, m)).
  assert (Hst : State pr.1 = State resp).
  { unfold pr. destruct (String_IsNull (WorkspaceId m)); [|done].
    by destruct (dataOrDefaultOrganization _ _ _). }
  destruct pr as [resp1 plan]. simpl in Hst.
  destruct (HasError (Diags resp1)) eqn:He1.
  { intros Ht. symmetry in Ht. unfold ret in Ht. simpl in Ht. trace_absurd. }
  intros Ht Hf. exists plan, resp1. split; [done|]. split; [done|].
  destruct (negb (Object_IsNull (DeleteOlderThan plan))).
  { destruct (createDeleteOlderThan_success r plan resp1 w e Ht Hf) as [H1 H2]. auto. }
  destruct (negb (Object_IsNull (DontDelete plan))).
  { destruct (createDontDelete_success r plan resp1 w e Ht Hf) as [H1 H2]. auto. }
  symmetry in Ht. unfold ret in Ht. simpl in Ht. trace_absurd.
Qed.

Lemma Get_State_Set resp (m : modelTFEDataRetentionPolicy) :
  Get (State (State_Set resp m)) = ([], m) /\
  Diags (State_Set resp m) = Diags resp.
Proof. split; [apply Get_Set_ | done]. Qed.

Lemma createDeleteOlderThan_stored r plan resp w e :
  trace (createDeleteOlderThan r plan resp w).2 = trace w ++ [e] ->
  failed e = None ->
  exists options p,
    call e = tfe.SetDeleteOlder (target plan).1 (target plan).2 options /\
    tfe.SetDataRetentionPolicyDeleteOlder (ConfiguredClient.Client (config r))
      (target plan).1 (target plan).2 options (remote w)
    = (Go.Ok p, remote (createDeleteOlderThan r plan resp w).2) /\
    (createDeleteOlderThan r plan resp w).1
    = Returned (if HasError (fromDeleteOlder plan p).2
                then Diagnostics_Append resp (fromDeleteOlder plan p).2
                else State_Set resp (fromDeleteOlder plan p).1).
Proof.
  unfold createDeleteOlderThanRetentionPolicy, target. unfold_calls.
  intros Ht Hf.
  destruct (As (DeleteOlderThan plan) _) as [ds [d|]]; destruct (HasError ds);
    simpl in *; try trace_absurd; try (symmetry in Ht; trace_absurd).
  destruct (ValueBigFloat (Days d)); simpl in *; [|symmetry in Ht; trace_absurd].
  destruct (String_IsNull (WorkspaceId plan)); simpl in *;
    destruct (tfe.SetDataRetentionPolicyDeleteOlder _ _ _ _ _) as [[p|err] s] eqn:Hcall;
    simpl in *;
    try (destruct (fromDeleteOlder plan p) as [res dg] eqn:Hfrom;
         destruct (HasError dg) eqn:Hdg; simpl in * );
    apply app_inv_head in Ht; simplify_eq/=;
    eexists _, p; rewrite Hcall, Hfrom; simpl; rewrite Hdg; done.
Qed.

Lemma createDontDelete_stored r plan resp w e :
  trace (createDontDelete r plan resp w).2 = trace w ++ [e] ->
  failed e = None ->
  exists p,
    call e = tfe.SetDontDelete (target plan).1 (target plan).2
               tfe.NoDontDeleteSetOptions /\
    tfe.SetDataRetentionPolicyDontDelete (ConfiguredClient.Client (config r))
      (target plan).1 (target plan).2 tfe.NoDontDeleteSetOptions (remote w)
    = (Go.Ok p, remote (createDontDelete r plan resp w).2) /\
    (createDontDelete r plan resp w).1
    = Returned (State_Set resp (fromDontDelete plan p)).
Proof.
  unfold createDontDeleteRetentionPolicy, target. unfold_calls.
  intros Ht Hf.
  destruct (As (DeleteOlderThan plan) _) as [ds d]; destruct (HasError ds);
    simpl in *; try (symmetry in Ht; trace_absurd).
  destruct (String_IsNull (WorkspaceId plan)); simpl in *;
    destruct (tfe.SetDataRetentionPolicyDontDelete _ _ _ _ _) as [[p|err] s] eqn:Hcall;
    simpl in *; apply app_inv_head in Ht; simplify_eq/=;
    exists p; rewrite ?Hcall; done.
Qed.

(** A run of [Create] that made a call is a branch run on the
    dispatched plan, with a response that had no error and the state
    [Create] was given. *)
Lemma create_dispatched r req resp w e :
  trace (create r req resp w).2 = trace w ++ [e] ->
  exists resp1,
    HasError (Diags resp1) = false /\
    State resp1 = State resp /\
    (create r req resp w
     = createDeleteOlderThan r (dispatched_plan dataOrDefaultOrganization r req) resp1 w \/
     create r req resp w
     = createDontDelete r (dispatched_plan dataOrDefaultOrganization r req) resp1 w).
Proof.
  unfold Create, dispatched_plan. destruct (Get (Create_Plan req)) as [ds m]. simpl.
  destruct (HasError (Append (Diags resp) ds)) eqn:He; simpl.
  { intros Ht. symmetry in Ht. trace_absurd. }
  destruct (String_IsNull (WorkspaceId m)).
  - destruct (dataOrDefaultOrganization _ _ _) as [ds' org]. simpl.
    destruct (HasError (Append (Append (Diags resp) ds) ds')) eqn:He'.
    { intros Ht. symmetry in Ht. unfold ret in Ht. simpl in Ht. trace_absurd. }
    intros Ht. exists (Diagnostics_Append (Diagnostics_Append resp ds) ds').
    split; [exact He'|]. split; [reflexivity|].
    destruct (negb (Object_IsNull (DeleteOlderThan m))); [by left|].
    destruct (negb (Object_IsNull (DontDelete m))); [by right|].
    symmetry in Ht. unfold ret in Ht. simpl in Ht. trace_absurd.
  - simpl. rewrite He.
    intros Ht. exists (Diagnostics_Append resp ds). split; [exact He|].
    split; [reflexivity|].
    destruct (negb (Object_IsNull (DeleteOlderThan m))); [by left|].
    destruct (negb (Object_IsNull (DontDelete m))); [by right|].
    symmetry in Ht. unfold ret in Ht. simpl in Ht. trace_absurd.
Qed.

(** X5. When the remote call of [Create] succeeds, the call is the "set"
    call of one variant at the target of the dispatched plan, and the
    policy [p] is what the client answered to it.  Either the response
    holds the model that the conversion made of the dispatched plan and
    of [p], a complete record that decodes without a diagnostic and
    comes with no error, or, on the delete-older-than branch, the
    conversion reported an error and the state is the one [Create] was
    given. *)
Theorem Create_success_stores_result r req resp w e :
  trace (create r req resp w).2 = trace w ++ [e] ->
  failed e = None ->
  exists resp',
    (create r req resp w).1 = Returned resp' /\
    ((exists options p,
         call e = tfe.SetDeleteOlder
                    (target (dispatched_plan dataOrDefaultOrganization r req)).1
                    (target (dispatched_plan dataOrDefaultOrganization r req)).2
                    options /\
         tfe.SetDataRetentionPolicyDeleteOlder (ConfiguredClient.Client (config r))
           (target (dispatched_plan dataOrDefaultOrganization r req)).1
           (target (dispatched_plan dataOrDefaultOrganization r req)).2
           options (remote w)
         = (Go.Ok p, remote (create r req resp w).2) /\
         if HasError
              (fromDeleteOlder (dispatched_plan dataOrDefaultOrganization r req) p).2
         then State resp' = State resp /\ HasError (Diags resp') = true
         else
           State resp'
           = (Set_ (fromDeleteOlder
                      (dispatched_plan dataOrDefaultOrganization r req) p).1).2 /\
           Get (State resp')
           = ([], (fromDeleteOlder
                     (dispatched_plan dataOrDefaultOrganization r req) p).1) /\
           HasError (Diags resp') = false) \/
     (exists p,
         call e = tfe.SetDontDelete
                    (target (dispatched_plan dataOrDefaultOrganization r req)).1
                    (target (dispatched_plan dataOrDefaultOrganization r req)).2
                    tfe.NoDontDeleteSetOptions /\
         tfe.SetDataRetentionPolicyDontDelete (ConfiguredClient.Client (config r))
           (target (dispatched_plan dataOrDefaultOrganization r req)).1
           (target (dispatched_plan dataOrDefaultOrganization r req)).2
           tfe.NoDontDeleteSetOptions (remote w)
         = (Go.Ok p, remote (create r req resp w).2) /\
         State resp'
         = (Set_ (fromDontDelete
                    (dispatched_plan dataOrDefaultOrganization r req) p)).2 /\
         Get (State resp')
         = ([], fromDontDelete (dispatched_plan dataOrDefaultOrganization r req) p) /\
         HasError (Diags resp') = false)).
Proof.
  intros Ht Hf.
  destruct (create_dispatched r req resp w e Ht) as (resp1 & He & Hs & [Hc | Hc]);
    rewrite Hc in Ht |- *.
  - destruct (createDeleteOlderThan_stored r _ resp1 w e Ht Hf)
      as (options & p & Hcall & Hans & Hr).
    rewrite Hr. eexists. split; [reflexivity|]. left. exists options, p.
    split; [done|]. split; [done|].
    destruct (HasError (fromDeleteOlder _ p).2) eqn:Hd; simpl.
    + split; [done|]. by rewrite HasError_Append, Hd, orb_true_r.
    + split; [done|]. split; [apply Get_Set_ | done].
  - destruct (createDontDelete_stored r _ resp1 w e Ht Hf) as (p & Hcall & Hans & Hr).
    rewrite Hr. eexists. split; [reflexivity|]. right. exists p.
    split; [done|]. split; [done|]. split; [done|].
    split; [apply Get_Set_ | done].
Qed.

(** X6. When the remote call of [Read] succeeds, the call is the "read
    policy choice" call at the target of the prior state, and the
    policy [p] is what the client answered to it.  Either the response
    holds the model that the conversion made of the prior state and of
    [p], a complete record without an error, or the conversion reported
    an error and the state is the one [Read] was given. *)
Theorem Read_success_stores_result r req resp w e :
  trace (read r req resp w).2 = trace w ++ [e] ->
  failed e = None ->
  exists resp' p,
    (read r req resp w).1 = Returned resp' /\
    call e = tfe.ReadChoice (target (Get (Read_State req)).2).1
               (target (Get (Read_State req)).2).2 /\
    tfe.ReadDataRetentionPolicyChoice (ConfiguredClient.Client (config r))
      (target (Get (Read_State req)).2).1 (target (Get (Read_State req)).2).2
      (remote w)
    = (Go.Ok p, remote (read r req resp w).2) /\
    if HasError (fromChoice (Get (Read_State req)).2 p).2
    then State resp' = State resp /\ HasError (Diags resp') = true
    else
      State resp' = (Set_ (fromChoice (Get (Read_State req)).2 p).1).2 /\
      Get (State resp') = ([], (fromChoice (Get (Read_State req)).2 p).1) /\
      HasError (Diags resp') = false.
Proof.
  unfold Read, target. unfold_calls.
  destruct (Get (Read_State req)) as [ds m]. simpl. intros Ht Hf.
  destruct (HasError (Append (Diags resp) ds)) eqn:He; simpl in *.
  { symmetry in Ht. trace_absurd. }
  destruct (String_IsNull (WorkspaceId m)); simpl in *;
    destruct (tfe.ReadDataRetentionPolicyChoice _ _ _ _) as [[p|err] s] eqn:Hcall;
    simpl in *;
    try (destruct (fromChoice m p) as [res dg] eqn:Hfrom;
         destruct (HasError dg) eqn:Hdg; simpl in * );
    apply app_inv_head in Ht; simplify_eq/=;
    eexists _, p; (split; [reflexivity|]); (split; [done|]);
    rewrite Hfrom; simpl; rewrite Hdg; (split; [done|]); simpl.
  all: first
    [ split; [done|]; by rewrite HasError_Append, Hdg, orb_true_r
    | split; [done|]; split; [apply Get_Set_ | done] ].
Qed.

(** X7. [Create] and a later [Read] agree on the remote target.  When
    the conversions keep the scope of the plan, a [Read] of the state
    that a successful [Create] stored calls the family and the address
    that the [Create] called. *)
Theorem Read_after_Create_same_target r req resp w e resp' :
  (forall plan p, target (fromDeleteOlder plan p).1 = target plan) ->
  (forall plan p, target (fromDontDelete plan p) = target plan) ->
  trace (create r req resp w).2 = trace w ++ [e] ->
  failed e = None ->
  (create r req resp w).1 = Returned resp' ->
  HasError (Diags resp') = false ->
  forall resp0 w0,
    HasError (Diags resp0) = false ->
    exists err,
      trace (read r {| Read_State := State resp' |} resp0 w0).2
      = trace w0 ++ [{| call := tfe.ReadChoice (tfe.family (call e))
                                  (tfe.address (call e));
                        failed := err |}].
Proof.
  intros Hk1 Hk2 Ht Hf Hr Hok resp0 w0 H0.
  destruct (create_success r req resp w e Ht Hf)
    as (plan & resp1 & He & Hs & Htg & Hres).
  assert (H : exists result,
             target result = call_target (call e) /\
             Get (State resp') = ([], result)).
  { destruct Hres as [[p Hr'] | [p Hr']]; rewrite Hr in Hr'; simplify_eq.
    - destruct (HasError (fromDeleteOlder plan p).2) eqn:Hd.
      + simpl in Hok. by rewrite HasError_Append, Hd, orb_true_r in Hok.
      + exists (fromDeleteOlder plan p).1.
        split; [by rewrite Hk1 | apply Get_Set_].
    - exists (fromDontDelete plan p). split; [by rewrite Hk2 | apply Get_Set_]. }
  destruct H as (result & Htarget & HG).
  destruct (read_call r {| Read_State := State resp' |} resp0 w0) as [err Hread].
  { cbn [Read_State]. rewrite HG. by rewrite Append_nil. }
  exists err. rewrite Hread. cbn [Read_State]. rewrite HG. cbn [snd].
  by rewrite Htarget.
Qed.

Lemma As_error (o : tfObject) (init : option modelTFEDeleteOlderThan) :
  o = ObjectUnknown \/
  (exists attrs, o = ObjectValue attrs /\
                 (attrs !! "days" = None \/ size attrs <> 1%nat)) ->
  HasError (As o init).1 = true.
Proof.
  intros [-> | (attrs & -> & H)]; [done|]. unfold As.
  destruct (attrs !! "days"); [|done].
  destruct H as [H|H]; [done|]. by rewrite bool_decide_eq_false_2.
Qed.

(** X8. A [delete_older_than] block that does not decode, because it is
    unknown or because its attributes are not exactly [days], makes
    [Create] return with an error before any remote call, the state
    untouched. *)
Theorem Create_rejects_undecodable_block r req resp w :
  DeleteOlderThan (Get (Create_Plan req)).2 = ObjectUnknown \/
  (exists attrs,
      DeleteOlderThan (Get (Create_Plan req)).2 = ObjectValue attrs /\
      (attrs !! "days" = None \/ size attrs <> 1%nat)) ->
  exists resp',
    create r req resp w = (Returned resp', w) /\
    State resp' = State resp /\
    HasError (Diags resp') = true.
Proof.
  intros H. pose proof (As_error _ (Some {| Days := NumberNull |}) H) as HAs.
  assert (Hnn : Object_IsNull (DeleteOlderThan (Get (Create_Plan req)).2) = false).
  { destruct H as [-> | (attrs & -> & _)]; done. }
  unfold Create. destruct (Get (Create_Plan req)) as [ds m]. simpl in *.
  destruct (HasError (Append (Diags resp) ds)) eqn:He.
  { eexists. split; [reflexivity|]. by simpl. }
  set (pr := if String_IsNull (WorkspaceId m)
             then let '(diags, organization) :=
                    dataOrDefaultOrganization (config r) (Create_Plan req) "" in
                  (Diagnostics_Append (Diagnostics_Append resp ds) diags,
                   set_Organization (StringValue organization) m)
             else (Diagnostics_Append resp ds, m)).
  assert (Hpr : State pr.1 = State resp /\ DeleteOlderThan pr.2 = DeleteOlderThan m).
  { unfold pr. destruct (String_IsNull (WorkspaceId m)); [|done].
    by destruct (dataOrDefaultOrganization _ _ _). }
  destruct pr as [resp1 plan]. simpl in Hpr. destruct Hpr as [Hs Hd].
  destruct (HasError (Diags resp1)) eqn:He1.
  { eexists. split; [reflexivity|]. done. }
  rewrite Hd, Hnn. simpl. unfold createDeleteOlderThanRetentionPolicy.
  rewrite Hd. destruct (As (DeleteOlderThan m) _) as [dg d]. simpl in HAs.
  rewrite HAs. eexists. split; [reflexivity|]. simpl.
  split; [done|]. by rewrite HasError_Append, HAs, orb_true_r.
Qed.

(** X9. A [delete_older_than] block whose [days] is null or unknown
    makes [Create] panic when nothing failed before: the nil float is
    dereferenced before any remote call. *)
Theorem Create_panics_without_days r req resp w (n : tfNumber) :
  DeleteOlderThan (Get (Create_Plan req)).2 = ObjectValue {[ "days" := n ]} ->
  ValueBigFloat n = None ->
  HasError (Diags resp) = false ->
  HasError (Get (Create_Plan req)).1 = false ->
  (String_IsNull (WorkspaceId (Get (Create_Plan req)).2) = true ->
   HasError (dataOrDefaultOrganization (config r) (Create_Plan req) "").1 = false) ->
  create r req resp w = (Panicked, w).
Proof.
  intros Hd Hn H1 H2 H3.
  unfold Create. destruct (Get (Create_Plan req)) as [ds m]. simpl in *.
  assert (He : HasError (Append (Diags resp) ds) = false).
  { by rewrite HasError_Append, H1, H2. }
  rewrite He.
  destruct (String_IsNull (WorkspaceId m)).
  - destruct (dataOrDefaultOrganization _ _ _) as [ds' org]. simpl in *.
    rewrite HasError_Append, He, H3 by done. simpl. rewrite Hd. simpl.
    unfold createDeleteOlderThanRetentionPolicy, As. simpl.
    rewrite Hd, lookup_singleton_eq, map_size_singleton. simpl. by rewrite Hn.
  - simpl. rewrite He, Hd. simpl.
    unfold createDeleteOlderThanRetentionPolicy, As.
    rewrite Hd, lookup_singleton_eq, map_size_singleton. simpl. by rewrite Hn.
Qed.


(** X11. What is sent for a number of days always fits an [int].  With a
    64-bit [int] a value beyond the [int64] range, an infinity included,
    is sent as the nearest bound; with a 32-bit [int] the low 32 bits of
    the [int64] are sent. *)
Theorem days_out_of_range (f : BigFloat.t) :
  intSize = 32 \/ intSize = 64 ->
  - 2 ^ (intSize - 1) <= int intSize (BigFloat.Int64 f) < 2 ^ (intSize - 1) /\
  (intSize = 64 ->
   int intSize (BigFloat.Int64 f) = BigFloat.Int64 f /\
   match f with
   | BigFloat.Finite m e =>
       (Go.MaxInt64 < BigFloat.trunc m e -> BigFloat.Int64 f = Go.MaxInt64) /\
       (BigFloat.trunc m e < Go.MinInt64 -> BigFloat.Int64 f = Go.MinInt64)
   | BigFloat.Inf neg =>
       BigFloat.Int64 f = if neg then Go.MinInt64 else Go.MaxInt64
   end) /\
  (intSize = 32 ->
   (int intSize (BigFloat.Int64 f) - BigFloat.Int64 f) mod 2 ^ 32 = 0).
Proof.
  intros Hs. split; [|split].
  - unfold int, Go.wrap.
    assert (H2 : 2 ^ intSize = 2 * 2 ^ (intSize - 1)).
    { rewrite <- Z.pow_succ_r by lia. f_equal. lia. }
    assert (Hp : 0 < 2 ^ (intSize - 1)) by (apply Z.pow_pos_nonneg; lia).
    pose proof (Z.mod_pos_bound (BigFloat.Int64 f + 2 ^ (intSize - 1)) (2 ^ intSize)).
    lia.
  - intros ->. split.
    + apply wrap_in_range; [lia|].
      pose proof (Int64_bounds f). unfold Go.MinInt64, Go.MaxInt64 in *. simpl. lia.
    + destruct f as [m e | []]; [|done..]. unfold BigFloat.Int64. split; intros H.
      * destruct (Z.ltb_spec (BigFloat.trunc m e) Go.MinInt64);
          [unfold Go.MinInt64, Go.MaxInt64 in *; lia|].
        by destruct (Z.ltb_spec Go.MaxInt64 (BigFloat.trunc m e)); [|lia].
      * by destruct (Z.ltb_spec (BigFloat.trunc m e) Go.MinInt64); [|lia].
  - intros ->. unfold int, Go.wrap.
    replace ((BigFloat.Int64 f + 2 ^ (32 - 1)) mod 2 ^ 32 - 2 ^ (32 - 1)
             - BigFloat.Int64 f)
      with (- ((BigFloat.Int64 f + 2 ^ (32 - 1)) / 2 ^ 32) * 2 ^ 32).
    + apply Z.mod_mul. lia.
    + pose proof (Z.div_mod (BigFloat.Int64 f + 2 ^ (32 - 1)) (2 ^ 32)). lia.
Qed.

Lemma Get_blocks (data : gmap string attrValue) :
  DeleteOlderThan (Get data).2 = (get_object data "delete_older_than").2 /\
  DontDelete (Get data).2 = (get_object data "dont_delete").2.
Proof.
  unfold Get.
  destruct (get_string data "id"), (get_string data "organization"),
    (get_string data "workspace_id"), (get_object data "delete_older_than"),
    (get_object data "dont_delete"). done.
Qed.

Lemma Schema_Validate_known (config : gmap string attrValue) :
  Object_IsUnknown (DeleteOlderThan (Get config).2) = false ->
  Object_IsUnknown (DontDelete (Get config).2) = false ->
  (HasError (Schema_Validate config) = false <->
   Object_IsNull (DeleteOlderThan (Get config).2)
   = negb (Object_IsNull (DontDelete (Get config).2))).
Proof.
  destruct (Get_blocks config) as [-> ->].
  unfold Schema_Validate, ExactlyOneOf.
  destruct (get_object config "delete_older_than") as [d1 o1],
    (get_object config "dont_delete") as [d2 o2]. simpl.
  intros H1 H2. destruct o1, o2; try discriminate; simpl; split; done.
Qed.

(** X12. The validators of the schema accept a configuration whose two
    blocks are known exactly when one of them, and one only, is set;
    while a block is unknown they report nothing. *)
Theorem Schema_Validate_exactly_one (config : gmap string attrValue) :
  (Object_IsUnknown (DeleteOlderThan (Get config).2) = false ->
   Object_IsUnknown (DontDelete (Get config).2) = false ->
   (HasError (Schema_Validate config) = false <->
    Object_IsNull (DeleteOlderThan (Get config).2)
    = negb (Object_IsNull (DontDelete (Get config).2)))) /\
  (Object_IsUnknown (DeleteOlderThan (Get config).2) = true \/
   Object_IsUnknown (DontDelete (Get config).2) = true ->
   Schema_Validate config = []).
Proof.
  destruct (Get_blocks config) as [-> ->].
  unfold Schema_Validate, ExactlyOneOf.
  destruct (get_object config "delete_older_than") as [d1 o1],
    (get_object config "dont_delete") as [d2 o2]. simpl.
  split.
  - intros H1 H2. destruct o1, o2; try discriminate; simpl; split; done.
  - intros [H|H]; destruct o1, o2; try discriminate; reflexivity.
Qed.

Lemma createDeleteOlderThan_one_call r plan resp w (f : BigFloat.t) :
  DeleteOlderThan plan = ObjectValue {[ "days" := NumberValue f ]} ->
  exists e, trace (createDeleteOlderThan r plan resp w).2 = trace w ++ [e].
Proof.
  intros Hplan.
  unfold createDeleteOlderThanRetentionPolicy, As. unfold_calls.
  rewrite Hplan, lookup_singleton_eq, map_size_singleton. simpl.
  destruct (String_IsNull (WorkspaceId plan)); simpl;
    destruct (tfe.SetDataRetentionPolicyDeleteOlder _ _ _ _ _) as [[p|e] s]; simpl;
    repeat case_match; simpl; eauto.
Qed.

Lemma createDontDelete_one_call r plan resp w :
  DeleteOlderThan plan = ObjectNull ->
  exists e, trace (createDontDelete r plan resp w).2 = trace w ++ [e].
Proof.
  intros Hplan.
  unfold createDontDeleteRetentionPolicy, As. unfold_calls. rewrite Hplan. simpl.
  destruct (String_IsNull (WorkspaceId plan)); simpl;
    destruct (tfe.SetDataRetentionPolicyDontDelete _ _ _ _ _) as [[p|e] s]; simpl;
    eauto.
Qed.

(** X13. For a plan that went through validation [Create] makes exactly
    one remote call.  The preconditions are those of an apply: the
    configuration passed the validators of the schema, the plan has the
    blocks of the configuration, [dont_delete] is known and
    [delete_older_than] is absent or has a known number of days, and
    nothing failed before the dispatch. *)
Theorem validated_plan_one_call r req resp w :
  HasError (Schema_Validate (Create_Config req)) = false ->
  DeleteOlderThan (Get (Create_Plan req)).2
  = DeleteOlderThan (Get (Create_Config req)).2 ->
  DontDelete (Get (Create_Plan req)).2 = DontDelete (Get (Create_Config req)).2 ->
  Object_IsUnknown (DontDelete (Get (Create_Plan req)).2) = false ->
  decodable (DeleteOlderThan (Get (Create_Plan req)).2) ->
  HasError (Diags resp) = false ->
  HasError (Get (Create_Plan req)).1 = false ->
  (String_IsNull (WorkspaceId (Get (Create_Plan req)).2) = true ->
   HasError (dataOrDefaultOrganization (config r) (Create_Plan req) "").1 = false) ->
  exists e, trace (create r req resp w).2 = trace w ++ [e].
Proof.
  intros Hv Ho Hd Hk Hdec H1 H2 H3.
  assert (Hone : Object_IsNull (DeleteOlderThan (Get (Create_Plan req)).2)
                 = negb (Object_IsNull (DontDelete (Get (Create_Plan req)).2))).
  { rewrite Ho, Hd.
    apply (Schema_Validate_known (Create_Config req)); [| |done].
    - rewrite <- Ho. by destruct Hdec as [-> | [f ->]].
    - by rewrite <- Hd. }
  unfold Create. destruct (Get (Create_Plan req)) as [ds m]. simpl in *.
  assert (He : HasError (Append (Diags resp) ds) = false).
  { by rewrite HasError_Append, H1, H2. }
  rewrite He.
  set (pr := if String_IsNull (WorkspaceId m)
             then let '(diags, organization) :=
                    dataOrDefaultOrganization (config r) (Create_Plan req) "" in
                  (Diagnostics_Append (Diagnostics_Append resp ds) diags,
                   set_Organization (StringValue organization) m)
             else (Diagnostics_Append resp ds, m)).
  assert (Hpr : HasError (Diags pr.1) = false /\
                DeleteOlderThan pr.2 = DeleteOlderThan m /\
                DontDelete pr.2 = DontDelete m).
  { unfold pr. destruct (String_IsNull (WorkspaceId m)); [|done].
    destruct (dataOrDefaultOrganization _ _ _) as [ds' org]. simpl in *.
    by rewrite HasError_Append, He, H3. }
  destruct pr as [resp1 plan]. simpl in Hpr. destruct Hpr as (-> & Hpo & Hpd).
  rewrite Hpo, Hpd.
  destruct Hdec as [Hnull | [f Hval]].
  - rewrite Hnull in Hone |- *. simpl in *.
    destruct (Object_IsNull (DontDelete m)); [discriminate|]. simpl.
    apply createDontDelete_one_call. by rewrite Hpo.
  - rewrite Hval. simpl. apply (createDeleteOlderThan_one_call _ _ _ _ f).
    by rewrite Hpo.
Qed.

(** X14. [ImportState] does not ask the two segments to be non-empty:
    an identifier that starts with ['/'] is imported with the empty
    organization, one that ends at its first ['/'] with the empty id.
    The empty identifier is refused. *)
Theorem ImportState_empty_segments r resp w :
  (forall id,
      ImportState r {| Import_ID := "/" +:+ id |} resp w
      = (Returned (imported resp "" id), w)) /\
  (forall org,
      ~ contains_slash org ->
      ImportState r {| Import_ID := org +:+ "/" |} resp w
      = (Returned (imported resp org ""), w)) /\
  (exists resp',
      ImportState r {| Import_ID := "" |} resp w = (Returned resp', w) /\
      State resp' = State resp /\
      HasError (Diags resp') = true).
Proof.
  split; [|split].
  - intros id. apply (ImportState_accepted r resp w "" id), contains_slash_empty.
  - intros org H. by apply (ImportState_accepted r resp w org "").
  - eexists. split; [apply ImportState_refused, contains_slash_empty|].
    split; [done | apply HasError_AddError].
Qed.

(** X15. [Configure] keeps the diagnostics it finds and adds an error
    exactly for provider data of a foreign type.  Nil data leaves the
    resource as it was, a [ConfiguredClient] becomes its configuration,
    and data of a foreign type replaces the configuration by the zero
    value although the error was reported. *)
Theorem Configure_cases (zero : ConfiguredClient.t R) r (data : ProviderData R)
    (diags : Diagnostics) :
  (forall d, d ∈ diags -> d ∈ (Configure zero r data diags).2) /\
  HasError (Configure zero r data diags).2
  = HasError diags || match data with ProviderData_other _ => true | _ => false end /\
  match data with
  | ProviderData_nil => (Configure zero r data diags).1 = r
  | ProviderData_ConfiguredClient client =>
      config (Configure zero r data diags).1 = client
  | ProviderData_other _ => config (Configure zero r data diags).1 = zero
  end.
Proof.
  destruct data as [|client|T]; simpl.
  - by rewrite orb_false_r.
  - by rewrite orb_false_r.
  - split; [|split; [|done]].
    + intros d Hd. apply elem_of_Append. by left.
    + by rewrite HasError_AddError, orb_true_r.
Qed.



End Properties.

(** * The properties on concrete runs *)

(** C1, as first stated, fails on a plan with neither block: [Create]
    returns the response it was given, without an error, and the trace
    stays empty. *)
Lemma Create_neither_block_silent :
  Object_IsNull (DeleteOlderThan (Get Fake.plan_neither).2) = true /\
  Object_IsNull (DontDelete (Get Fake.plan_neither).2) = true /\
  Fake.create Fake.accepting None Fake.plan_neither
  = (Returned Fake.resp0, Fake.world0) /\
  HasError (Diags Fake.resp0) = false /\
  trace Fake.world0 = [].
Proof. repeat split; vm_compute; reflexivity. Qed.

Lemma Create_at_most_one_set_witness :
  exists resp',
    Fake.create Fake.accepting None Fake.plan_neither = (Returned resp', Fake.world0) /\
    State resp' = State Fake.resp0.
Proof.
  destruct (proj1 (proj2 (Create_at_most_one_set 64
              ConfiguredClient_dataOrDefaultOrganization
              Fake.fromDeleteOlder Fake.fromDontDelete
              (Fake.resource Fake.accepting None)
              {| Create_Config := Fake.plan_neither; Create_Plan := Fake.plan_neither |}
              Fake.resp0 Fake.world0)) eq_refl eq_refl)
    as (resp' & H1 & H2 & _).
  exists resp'. split; assumption.
Defined.

Lemma workspace_addressing_witness :
  exists err,
    trace (Fake.create Fake.accepting (Some "acme") Fake.plan_older_ws).2
    = trace Fake.world0
      ++ [{| call := tfe.SetDeleteOlder tfe.Workspaces "ws-123"
                       {| tfe.DeleteOlderThanNDays := 30 |};
             failed := err |}].
Proof.
  apply (proj1 (proj2 (proj2 (proj2 (proj2 (proj2
           (workspace_addressing 64 ConfiguredClient_dataOrDefaultOrganization
              Fake.fromDeleteOlder Fake.fromDontDelete Fake.fromChoice
              (Fake.resource Fake.accepting (Some "acme")) Fake.resp0 Fake.world0
              Fake.plan_older_ws (StringValue "ws-123") eq_refl eq_refl))))
           eq_refl))
           {| Create_Config := Fake.plan_older_ws; Create_Plan := Fake.plan_older_ws |}
           BigFloat.thirty eq_refl eq_refl).
Defined.

Lemma remote_failure_witness :
  exists resp',
    (Fake.create Fake.refusing (Some "acme") Fake.plan_dont_org).1 = Returned resp' /\
    State resp' = State Fake.resp0 /\
    NewErrorDiagnostic "Unable to create data retention policy" "forbidden" ∈ Diags resp' /\
    HasError (Diags resp') = true.
Proof.
  pose (e := {| call := tfe.SetDontDelete tfe.Organizations "acme"
                          tfe.NoDontDeleteSetOptions;
                failed := Some "forbidden" |}).
  assert (Hin : e ∈ [e]) by (apply list_elem_of_singleton; reflexivity).
  apply (proj1 (remote_failure_persists_no_state 64
                  ConfiguredClient_dataOrDefaultOrganization
                  Fake.fromDeleteOlder Fake.fromDontDelete Fake.fromChoice
                  (Fake.resource Fake.refusing (Some "acme")) Fake.resp0 Fake.world0
                  [e] e "forbidden" Hin eq_refl)
           {| Create_Config := Fake.plan_dont_org; Create_Plan := Fake.plan_dont_org |}).
  vm_compute. reflexivity.
Defined.

Lemma ImportState_splits_witness :
  exists org id,
    "acme/pol/extra" = org +:+ "/" +:+ id /\ ~ contains_slash org /\
    ImportState (Fake.resource Fake.accepting None)
      {| Import_ID := "acme/pol/extra" |} Fake.resp0 Fake.world0
    = (Returned (imported Fake.resp0 org id), Fake.world0).
Proof.
  apply (proj1 (ImportState_splits_at_first_slash (Fake.resource Fake.accepting None)
                  Fake.resp0 Fake.world0 "acme/pol/extra")).
  exists "acme", "pol/extra". reflexivity.
Defined.

(** C6, as first stated, fails beyond the [int64] range: for [2^64] days
    and a 64-bit [int] the call carries [math.MaxInt64], which is not
    that number rounded toward zero. *)
Lemma days_beyond_int64_not_rounded :
  (exists err,
      trace (createDeleteOlderThanRetentionPolicy 64 Fake.fromDeleteOlder
               (Fake.resource Fake.accepting None)
               (Fake.model_older_ws (BigFloat.Finite 1 64))
               Fake.resp0 Fake.world0).2
      = [{| call := tfe.SetDeleteOlder tfe.Workspaces "ws-123"
                      {| tfe.DeleteOlderThanNDays := 9223372036854775807 |};
            failed := err |}]) /\
  ~ rounds_toward_zero (BigFloat.numerator 1 64) (BigFloat.denominator 1 64)
      9223372036854775807.
Proof.
  split.
  - eexists. vm_compute. reflexivity.
  - intros [[_ H] _]. vm_compute in H. discriminate H.
Qed.

Lemma days_converted_witness :
  exists err,
    trace (createDeleteOlderThanRetentionPolicy 64 Fake.fromDeleteOlder
             (Fake.resource Fake.accepting None)
             (Fake.model_older_ws BigFloat.thirty_point_seven)
             Fake.resp0 Fake.world0).2
    = [{| call := tfe.SetDeleteOlder tfe.Workspaces "ws-123"
                    {| tfe.DeleteOlderThanNDays := 30 |};
          failed := err |}].
Proof.
  apply (proj1 (days_converted_toward_zero 64 Fake.fromDeleteOlder
                  (Fake.resource Fake.accepting None)
                  (Fake.model_older_ws BigFloat.thirty_point_seven)
                  Fake.resp0 Fake.world0 BigFloat.thirty_point_seven
                  (or_intror eq_refl) eq_refl)).
Defined.

Lemma Create_resolves_organization_witness :
  exists resp',
    Fake.create Fake.accepting None Fake.plan_dont_org = (Returned resp', Fake.world0) /\
    HasError (Diags resp') = true /\
    State resp' = State Fake.resp0.
Proof.
  destruct (proj1 (Create_resolves_organization 64 Fake.fromDeleteOlder Fake.fromDontDelete
              (Fake.resource Fake.accepting None)
              {| Create_Config := Fake.plan_dont_org; Create_Plan := Fake.plan_dont_org |}
              Fake.resp0 Fake.world0 eq_refl) eq_refl)
    as (resp' & H1 & H2 & H3 & _).
  exists resp'. repeat split; assumption.
Defined.

Lemma createDontDelete_ignores_witness :
  (createDontDeleteRetentionPolicy Fake.fromDontDelete (Fake.resource Fake.accepting None)
     (set_DeleteOlderThan ObjectNull (Fake.model_older_ws BigFloat.thirty))
     Fake.resp0 Fake.world0).2
  = (createDontDeleteRetentionPolicy Fake.fromDontDelete (Fake.resource Fake.accepting None)
       (set_DeleteOlderThan (Fake.days BigFloat.thirty) (Fake.model_older_ws BigFloat.thirty))
       Fake.resp0 Fake.world0).2.
Proof.
  apply (proj2 (createDontDelete_ignores_decoded Fake.fromDontDelete
                  (Fake.resource Fake.accepting None)
                  (Fake.model_older_ws BigFloat.thirty) Fake.resp0 Fake.world0
                  ObjectNull (Fake.days BigFloat.thirty) eq_refl eq_refl)).
Defined.

Lemma ImportState_writes_witness :
  exists org id resp',
    "acme/pol-abc123" = org +:+ "/" +:+ id /\
    ImportState (Fake.resource Fake.accepting None)
      {| Import_ID := "acme/pol-abc123" |} Fake.resp0 Fake.world0
    = (Returned resp', Fake.world0) /\
    State resp' !! "workspace_id" = None.
Proof.
  destruct (ImportState_writes_organization_and_id Fake.fromChoice
              (Fake.resource Fake.accepting None) Fake.resp0 Fake.world0
              "acme/pol-abc123" eq_refl)
    as (org & id & resp' & H1 & H2 & _ & _ & H3 & _).
  exists org, id, resp'. split; [assumption|]. split; [assumption|].
  rewrite (H3 "workspace_id"); [reflexivity | discriminate | discriminate].
Defined.

(** * The further properties on concrete runs *)

Lemma earlier_error_witness :
  exists resp',
    Fake.create Fake.accepting None Fake.plan_bad_kind = (Returned resp', Fake.world0) /\
    State resp' = State Fake.resp0 /\
    HasError (Diags resp') = true.
Proof.
  apply (proj1 (earlier_error_stops_callback 64 ConfiguredClient_dataOrDefaultOrganization
                  Fake.fromDeleteOlder Fake.fromDontDelete Fake.fromChoice
                  (Fake.resource Fake.accepting None) Fake.resp0 Fake.world0)
           {| Create_Config := Fake.plan_bad_kind; Create_Plan := Fake.plan_bad_kind |}).
  right. left. reflexivity.
Defined.

Lemma state_written_witness : State Fake.resp0 = State Fake.resp0.
Proof.
  apply (proj1 (state_written_only_after_call 64 ConfiguredClient_dataOrDefaultOrganization
                  Fake.fromDeleteOlder Fake.fromDontDelete Fake.fromChoice
                  (Fake.resource Fake.accepting None) Fake.resp0 Fake.world0)
           {| Create_Config := Fake.plan_neither; Create_Plan := Fake.plan_neither |}
           Fake.resp0); reflexivity.
Defined.

Lemma Create_branch_witness :
  Forall (fun e => tfe.is_SetDeleteOlder (call e) = true /\
                   tfe.is_SetDontDelete (call e) = false)
    (trace (Fake.create Fake.accepting None Fake.plan_older_ws).2).
Proof.
  apply (Create_branch_by_delete_older_than 64 ConfiguredClient_dataOrDefaultOrganization
           Fake.fromDeleteOlder Fake.fromDontDelete
           (Fake.resource Fake.accepting None)
           {| Create_Config := Fake.plan_older_ws; Create_Plan := Fake.plan_older_ws |}
           Fake.resp0 Fake.world0).
  reflexivity.
Defined.

Lemma Create_success_witness :
  exists resp',
    (Fake.create Fake.accepting None Fake.plan_older_ws).1 = Returned resp' /\
    State resp' !! "id" = Some (AttrString (StringValue "drp-1")).
Proof.
  destruct (Create_success_stores_result 64 ConfiguredClient_dataOrDefaultOrganization
              Fake.fromDeleteOlder Fake.fromDontDelete
              (Fake.resource Fake.accepting None)
              {| Create_Config := Fake.plan_older_ws; Create_Plan := Fake.plan_older_ws |}
              Fake.resp0 Fake.world0
              {| call := tfe.SetDeleteOlder tfe.Workspaces "ws-123"
                           {| tfe.DeleteOlderThanNDays := 30 |};
                 failed := None |}
              eq_refl eq_refl) as (resp' & H & _).
  exists resp'. split; [exact H|].
  vm_compute in H. injection H as <-. reflexivity.
Defined.

Lemma Read_success_witness :
  exists resp',
    (Fake.read Fake.accepting Fake.state_org).1 = Returned resp' /\
    State resp' !! "organization" = Some (AttrString (StringValue "acme")).
Proof.
  destruct (Read_success_stores_result Fake.fromChoice
              (Fake.resource Fake.accepting None)
              {| Read_State := Fake.state_org |} Fake.resp0 Fake.world0
              {| call := tfe.ReadChoice tfe.Organizations "acme"; failed := None |}
              eq_refl eq_refl) as (resp' & p & H & _).
  exists resp'. split; [exact H|].
  vm_compute in H. injection H as <-. reflexivity.
Defined.

Lemma Read_after_Create_witness :
  exists err,
    trace (Read Fake.fromChoice (Fake.resource Fake.accepting None)
             {| Read_State :=
                  match (Fake.create Fake.accepting None Fake.plan_older_ws).1 with
                  | Returned resp' => State resp'
                  | Panicked => ∅
                  end |}
             Fake.resp0 Fake.world0).2
    = [{| call := tfe.ReadChoice tfe.Workspaces "ws-123"; failed := err |}].
Proof.
  apply (Read_after_Create_same_target 64 ConfiguredClient_dataOrDefaultOrganization
           Fake.fromDeleteOlder Fake.fromDontDelete Fake.fromChoice
           (Fake.resource Fake.accepting None)
           {| Create_Config := Fake.plan_older_ws; Create_Plan := Fake.plan_older_ws |}
           Fake.resp0 Fake.world0
           {| call := tfe.SetDeleteOlder tfe.Workspaces "ws-123"
                        {| tfe.DeleteOlderThanNDays := 30 |};
              failed := None |}
           _
           (fun plan p => eq_refl) (fun plan p => eq_refl)
           eq_refl eq_refl eq_refl eq_refl Fake.resp0 Fake.world0 eq_refl).
Defined.

Lemma Create_rejects_undecodable_witness :
  exists resp',
    Fake.create Fake.accepting None Fake.plan_unknown_block
    = (Returned resp', Fake.world0) /\
    State resp' = State Fake.resp0 /\
    HasError (Diags resp') = true.
Proof.
  apply (Create_rejects_undecodable_block 64 ConfiguredClient_dataOrDefaultOrganization
           Fake.fromDeleteOlder Fake.fromDontDelete
           (Fake.resource Fake.accepting None)
           {| Create_Config := Fake.plan_unknown_block;
              Create_Plan := Fake.plan_unknown_block |}
           Fake.resp0 Fake.world0).
  left. reflexivity.
Defined.

Lemma Create_panics_witness :
  Fake.create Fake.accepting (Some "acme") Fake.plan_days_unknown
  = (Panicked, Fake.world0).
Proof.
  apply (Create_panics_without_days 64 ConfiguredClient_dataOrDefaultOrganization
           Fake.fromDeleteOlder Fake.fromDontDelete
           (Fake.resource Fake.accepting (Some "acme"))
           {| Create_Config := Fake.plan_days_unknown;
              Create_Plan := Fake.plan_days_unknown |}
           Fake.resp0 Fake.world0 NumberUnknown
           eq_refl eq_refl eq_refl eq_refl (fun _ => eq_refl)).
Defined.


Lemma days_out_of_range_witness :
  BigFloat.Int64 (BigFloat.Finite 1 64) = Go.MaxInt64.
Proof.
  apply (proj1 (proj2 (proj1 (proj2 (days_out_of_range 64 (BigFloat.Finite 1 64)
                                       (or_intror eq_refl))) eq_refl))).
  reflexivity.
Defined.

Lemma Schema_Validate_witness :
  HasError (Schema_Validate Fake.plan_older_ws) = false.
Proof.
  apply (proj1 (Schema_Validate_exactly_one Fake.plan_older_ws) eq_refl eq_refl).
  reflexivity.
Defined.

Lemma validated_plan_witness :
  exists e,
    trace (Fake.create Fake.accepting None Fake.plan_older_ws).2
    = trace Fake.world0 ++ [e].
Proof.
  apply (validated_plan_one_call 64 ConfiguredClient_dataOrDefaultOrganization
           Fake.fromDeleteOlder Fake.fromDontDelete
           (Fake.resource Fake.accepting None)
           {| Create_Config := Fake.plan_older_ws; Create_Plan := Fake.plan_older_ws |}
           Fake.resp0 Fake.world0 eq_refl eq_refl eq_refl eq_refl).
  - right. exists BigFloat.thirty. reflexivity.
  - reflexivity.
  - reflexivity.
  - intros H. discriminate H.
Defined.

Lemma ImportState_empty_segments_witness :
  ImportState (Fake.resource Fake.accepting None)
    {| Import_ID := "acme/" |} Fake.resp0 Fake.world0
  = (Returned (imported Fake.resp0 "acme" ""), Fake.world0).
Proof.
  apply (proj1 (proj2 (ImportState_empty_segments (Fake.resource Fake.accepting None)
                         Fake.resp0 Fake.world0)) "acme").
  rewrite !contains_slash_cons. intros [?|[?|[?|[?|?]]]]; try discriminate.
  by eapply contains_slash_empty.
Defined.

Lemma Configure_cases_witness :
  HasError (Configure (ConfiguredClient.Build_t nat Fake.refusing None)
              (Fake.resource Fake.accepting None)
              (ProviderData_other "string") []).2 = true.
Proof.
  apply (proj1 (proj2 (Configure_cases (ConfiguredClient.Build_t nat Fake.refusing None)
                         (Fake.resource Fake.accepting None)
                         (ProviderData_other "string") []))).
Defined.

